(** * gaemail: the Authentication-Results verifier of [main.py]

    A shallow embedding of [remove_comments], [verify_headers] and of the
    body construction of [deflect], together with the standard-library
    routine [cgi.parse_header] that [verify_headers] calls.

    Python values are modelled by the type [value]; a Python [str] is the
    list of its code points.  Exceptions are modelled by the error monad
    [exc]. *)

From Stdlib Require Import ZArith NArith String Ascii Bool Lia List Permutation.
Import ListNotations.

(** ** Python strings *)

(** A [str] is a sequence of Unicode code points. *)
Definition char := N.
Definition str := list char.

(** A literal whose characters are all in the 8-bit range. *)
Definition py (s : string) : str :=
  map N_of_ascii (list_ascii_of_string s).
Arguments py s%_string.

Definition lparen : char := 40%N.
Definition rparen : char := 41%N.
Definition semicolon : char := 59%N.
Definition equals : char := 61%N.
Definition dquote : char := 34%N.
Definition backslash : char := 92%N.
Definition newline : char := 10%N.

Definition char_eqb (a b : char) : bool := N.eqb a b.

Fixpoint str_eqb (a b : str) : bool :=
  match a, b with
  | [], [] => true
  | x :: a', y :: b' => char_eqb x y && str_eqb a' b'
  | _, _ => false
  end.

(** [c.isspace()] for a single code point: the whitespace table of the
    interpreter (general category Zs or bidirectional class WS, B, S). *)
Definition isspace (c : char) : bool :=
  ((9 <=? c) && (c <=? 13) || (28 <=? c) && (c <=? 32)
   || (c =? 133) || (c =? 160) || (c =? 5760)
   || (8192 <=? c) && (c <=? 8202)
   || (c =? 8232) || (c =? 8233) || (c =? 8239) || (c =? 8287)
   || (c =? 12288))%N.

(** [content[a:b]] for [0 <= a], [0 <= b]; Python clamps both ends. *)
Definition slice (content : str) (a b : nat) : str :=
  firstn (b - a) (skipn a content).

(** [s.endswith(suffix)]. *)
Definition endswith (s suffix : str) : bool :=
  (length suffix <=? length s)
  && str_eqb (skipn (length s - length suffix) s) suffix.

Fixpoint lstrip (s : str) : str :=
  match s with
  | c :: s' => if isspace c then lstrip s' else s
  | [] => []
  end.

(** [s.strip()]: whitespace removed at both ends. *)
Definition strip (s : str) : str := rev (lstrip (rev (lstrip s))).

Fixpoint is_prefix (p s : str) : bool :=
  match p, s with
  | [], _ => true
  | x :: p', y :: s' => char_eqb x y && is_prefix p' s'
  | _ :: _, [] => false
  end.

(** [s.find(sub, start)], as the offset from [start]; [find_from] adds
    the offset back.  The result is [-1] when [sub] does not occur. *)
Fixpoint find_at (sub s : str) (i : nat) : Z :=
  match s with
  | [] => if is_prefix sub [] then Z.of_nat i else (-1)%Z
  | _ :: s' => if is_prefix sub s then Z.of_nat i else find_at sub s' (S i)
  end.

Definition find_from (s sub : str) (start : nat) : Z :=
  if length s <? start then (-1)%Z else find_at sub (skipn start s) start.

Definition find (s sub : str) : Z := find_from s sub 0.

(** [s.count(sub, 0, stop)] for a non-empty [sub]: occurrences are counted
    left to right without overlap; [skip] is the number of characters
    still covered by the last occurrence. *)
Fixpoint count_aux (sub s : str) (skip : nat) : Z :=
  match s with
  | [] => 0%Z
  | _ :: s' =>
      match skip with
      | S k => count_aux sub s' k
      | O => if is_prefix sub s
             then (1 + count_aux sub s' (length sub - 1))%Z
             else count_aux sub s' 0
      end
  end.

Definition count (s sub : str) (stop : nat) : Z :=
  count_aux sub (firstn stop s) 0.

(** [s.replace(old, new)] for a non-empty [old]. *)
Fixpoint replace_aux (old new s : str) (skip : nat) : str :=
  match s with
  | [] => []
  | c :: s' =>
      match skip with
      | S k => replace_aux old new s' k
      | O => if is_prefix old s
             then new ++ replace_aux old new s' (length old - 1)
             else c :: replace_aux old new s' 0
      end
  end.

Definition replace (s old new : str) : str := replace_aux old new s 0.

Definition is_ascii (s : str) : bool := forallb (fun c => (c <? 128)%N) s.

Definition ascii_lower (c : char) : char :=
  if ((65 <=? c) && (c <=? 90))%N then (c + 32)%N else c.

Definition ascii_upper (c : char) : char :=
  if ((97 <=? c) && (c <=? 122))%N then (c - 32)%N else c.

(** A case mapping that leaves a string as it is; it instantiates the
    Unicode part of [lower] and [upper] in examples on ASCII text, where
    that part is never reached. *)
Definition unchanged (s : str) : str := s.

(** ** Python values and exceptions *)

#[warnings="-register-all"] Inductive value : Type :=
| VNone : value
| VInt : Z -> value
| VStr : str -> value
| VList : list value -> value
| VTuple : list value -> value.

(** [TypeError], and any other exception by the name of its class. *)
Inductive exn : Type :=
| TypeError : exn
| OtherError : str -> exn.

Inductive exc (A : Type) : Type :=
| Ok : A -> exc A
| Raise : exn -> exc A.
Arguments Ok {A} _.
Arguments Raise {A} _.

Definition bind {A B : Type} (m : exc A) (k : A -> exc B) : exc B :=
  match m with
  | Ok a => k a
  | Raise e => Raise e
  end.

Notation "x <- m ;; k" := (bind m (fun x => k))
  (at level 61, m at next level, right associativity).

(** [isinstance(v, str)]. *)
Definition is_str (v : value) : bool :=
  match v with VStr _ => true | _ => false end.

(** [len(v)]. *)
Definition py_len (v : value) : exc nat :=
  match v with
  | VStr s => Ok (length s)
  | VList l | VTuple l => Ok (length l)
  | VNone | VInt _ => Raise TypeError
  end.

(** The elements produced by [for x in v]. *)
Definition py_iter (v : value) : exc (list value) :=
  match v with
  | VStr s => Ok (map (fun c => VStr [c]) s)
  | VList l | VTuple l => Ok l
  | VNone | VInt _ => Raise TypeError
  end.

(** ** [remove_comments] (main.py, lines 56-92) *)

(** First loop (lines 73-82): [rest] is [content[i:]]; the result is the
    index at which the loop stops. *)
Fixpoint skip_leading (rest : str) (i : nat) (nesting_count : Z) : nat :=
  match rest with
  | [] => i
  | c :: rest' =>
      if char_eqb c lparen then skip_leading rest' (S i) (nesting_count + 1)
      else if char_eqb c rparen then skip_leading rest' (S i) (nesting_count - 1)
      else if negb (isspace c) && (nesting_count <=? 0)%Z then i
      else skip_leading rest' (S i) nesting_count
  end.

(** Second loop (lines 86-88). *)
Fixpoint skip_token (rest : str) (i : nat) : nat :=
  match rest with
  | [] => i
  | c :: rest' =>
      if negb (isspace c) && negb (char_eqb c lparen)
      then skip_token rest' (S i)
      else i
  end.

(** The body of [remove_comments] once [content] is known to be a [str]. *)
Definition remove_comments_str (content : str) : str :=
  let length := length content in
  if length <=? 0 then []
  else
    let start_index := skip_leading content 0 0 in
    let end_index := skip_token (skipn start_index content) start_index in
    slice content start_index end_index.

Definition remove_comments (content : value) : exc str :=
  match content with
  | VStr s => Ok (remove_comments_str s)
  | _ => Raise TypeError
  end.

(** ** [cgi.parse_header] (standard library, called at main.py line 137) *)

(** A [dict] with [str] keys and values: the entries in insertion order.
    Assigning to a key that is present replaces its value in place. *)
Definition dict := list (str * str).

Fixpoint dict_set (d : dict) (k v : str) : dict :=
  match d with
  | [] => [(k, v)]
  | (k', v') :: d' =>
      if str_eqb k' k then (k', v) :: d' else (k', v') :: dict_set d' k v
  end.

Fixpoint dict_get (d : dict) (k : str) : option str :=
  match d with
  | [] => None
  | (k', v') :: d' => if str_eqb k' k then Some v' else dict_get d' k
  end.

(** Inner loop of [_parseparam]:
    [while end > 0 and (s.count('"', 0, end) - s.count('\\"', 0, end)) % 2:
         end = s.find(';', end + 1)]. *)
Definition quote_open (s : str) (end_ : Z) : bool :=
  negb (((count s [dquote] (Z.to_nat end_)
          - count s [backslash; dquote] (Z.to_nat end_)) mod 2 =? 0)%Z).

Fixpoint parseparam_end (fuel : nat) (s : str) (end_ : Z) : Z :=
  match fuel with
  | O => end_
  | S fuel' =>
      if (end_ >? 0)%Z && quote_open s end_
      then parseparam_end fuel' s (find_from s [semicolon] (Z.to_nat (end_ + 1)))
      else end_
  end.

(** One turn of the outer loop of [_parseparam], for [s] the text after
    the leading [';']: the field yielded and the text left. *)
Definition parseparam_step (s : str) : str * str :=
  let end_ := find s [semicolon] in
  let end_ := parseparam_end (S (length s)) s end_ in
  let end_ := if (end_ <? 0)%Z then Z.of_nat (length s) else end_ in
  let f := slice s 0 (Z.to_nat end_) in
  (strip f, skipn (Z.to_nat end_) s).

Fixpoint parseparam_loop (fuel : nat) (s : str) : list str :=
  match fuel with
  | O => []
  | S fuel' =>
      match s with
      | c :: s1 =>
          if char_eqb c semicolon
          then let (f, s2) := parseparam_step s1 in f :: parseparam_loop fuel' s2
          else []
      | [] => []
      end
  end.

(** The fields generated by [_parseparam(s)]. *)
Definition parseparam (s : str) : list str := parseparam_loop (S (length s)) s.

(** ** Messages (main.py, [deflect]) *)

(** A body as [get_first_body] meets it: a [str], or an object whose
    [decode()] returns the next form of the body or raises. *)
Inductive payload : Type :=
| PText : str -> payload
| PDecodes : payload -> payload
| PRaises : exn -> payload.

(** What [deflect] reads from the [mail.InboundEmailMessage]: the
    attributes that may be absent, the values that [get_all] returns for
    the Authentication-Results header, and the bodies that
    [bodies(content_type)] yields for each content type, in order. *)
Record InboundEmailMessage : Type := {
  sender : option value;
  subject : option value;
  reply_to : option value;
  authentication_results : list value;
  text_plain_bodies : list payload;
  text_html_bodies : list payload
}.

(** The arguments handed to [mail.send_mail_to_admins]; the attachments
    are passed on as they are and are not part of the record. *)
Record SentMail : Type := {
  sent_sender : str;
  sent_subject : value;
  sent_body : str;
  sent_reply_to : value;
  sent_html : option str
}.

(** Sample data for the instances at the end of the file. *)

Definition always_valid (v : value) : bool := true.

Definition sample_message : InboundEmailMessage :=
  {| sender := Some (VStr (py "sender@example.net"));
     subject := Some (VStr (py "here's a sample"));
     reply_to := None;
     authentication_results := [VStr (py "example.org 1; none")];
     text_plain_bodies := [];
     text_html_bodies := [] |}.

Definition failing_header : str :=
  py "example.com; spf=fail smtp.mailfrom=example.net".

Definition passing_header : str :=
  py "mx.google.com; spf=pass smtp.mailfrom=example.net".

Definition comment_heavy : str :=
  py "mx.google.com (foobar) 1 (baz); dkim (Because I like it) / 1 (One yay) = (wait for it) pass policy (A dot) . expired (surprised) = (as) 1362471462".

Definition repeated_key : str := py "mx.google.com; spf=pass; spf=fail".

Definition distinct_keys : str := py "mx.google.com; spf (a)=pass; spf (b)=fail".

Definition support_sample : str := py "support@testbed-test.appspotmail.com".

Definition bare_message : InboundEmailMessage :=
  {| sender := Some (VStr (py "sender@example.net"));
     subject := Some (VStr (py "here's a sample"));
     reply_to := Some (VStr (py "reply@example.net"));
     authentication_results := [];
     text_plain_bodies := [PDecodes (PText (py "Hello!  Goodbye!"))];
     text_html_bodies := [PText (py "<p>Hello!</p>")] |}.

Definition verified_message : InboundEmailMessage :=
  {| sender := Some (VStr (py "sender@example.net"));
     subject := Some (VStr (py "here's a sample"));
     reply_to := None;
     authentication_results :=
       [VStr (py "mx.google.com; spf=pass smtp.mailfrom=example.net; dkim=pass header.d=example.net")];
     text_plain_bodies := [PDecodes (PText (py "Hello!  Goodbye!"));
                           PText (py "second part")];
     text_html_bodies := [] |}.


Definition delivers (sent : SentMail) : option exn := None.

Definition over_quota (sent : SentMail) : option exn :=
  Some (OtherError (py "OverQuotaError")).

Definition bad_request (sent : SentMail) : option exn :=
  Some (OtherError (py "BadRequestError")).

Definition keep_value (k : str) (v : value) : value := v.

Definition sample_headers : list (str * value) :=
  [(py "Authentication-Results", VStr passing_header);
   (py "From", VStr (py "sender@example.net"));
   (py "authentication-results", VStr failing_header)].

Section Verifier.

Set Default Proof Using "Type".

(** [str.lower] and [str.upper] on strings holding a character outside
    ASCII follow the Unicode case algorithm, which stays a parameter. *)
Variable unicode_lower : str -> str.
Variable unicode_upper : str -> str.

(** External collaborators of [deflect]. *)
Variable is_email_valid : value -> bool.
Variable support_address : str.

(** [mail.send_mail_to_admins] on the message it is given: [None] when it
    returns, otherwise the exception it raises. *)
Variable send_mail_to_admins : SentMail -> option exn.

(** Forget the parameters that a statement does not mention. *)
Ltac drop_params :=
  try clear send_mail_to_admins;
  try clear support_address; try clear is_email_valid;
  try clear unicode_upper; try clear unicode_lower.

(** [s.lower()]. *)
Definition lower (s : str) : str :=
  if is_ascii s then map ascii_lower s else unicode_lower s.

(** [s.upper()]. *)
Definition upper (s : str) : str :=
  if is_ascii s then map ascii_upper s else unicode_upper s.

(** Body of the [for p in parts] loop of [parse_header]: the name and
    the value computed from a part that holds an ['='] ... *)
Definition param_pair (p : str) : option (str * str) :=
  let i := find p [equals] in
  if (i >=? 0)%Z then
    let name := lower (strip (slice p 0 (Z.to_nat i))) in
    let value := strip (skipn (Z.to_nat (i + 1)) p) in
    let value :=
      if (2 <=? length value)
         && char_eqb (nth 0 value 0%N) (last value 0%N)
         && char_eqb (last value 0%N) dquote
      then
        let value := slice value 1 (length value - 1) in
        replace (replace value [backslash; backslash] [backslash])
                [backslash; dquote] [dquote]
      else value in
    Some (name, value)
  else None.

(** ... and the assignment [pdict[name] = value]. *)
Definition parse_param (pdict : dict) (p : str) : dict :=
  match param_pair p with
  | Some (name, value) => dict_set pdict name value
  | None => pdict
  end.

Definition parse_header (line : str) : str * dict :=
  match parseparam (semicolon :: line) with
  | key :: parts => (key, fold_left parse_param parts [])
  | [] => ([], [])
  end.

(** ** [verify_headers] (main.py, lines 94-152) *)

Definition _DEFAULT_ACCEPT : value := VTuple [VStr (py "pass")].

(** The generator expression of lines 125-127; the [frozenset] is kept as
    the list of its elements, of which only emptiness and membership are
    observed. *)
Fixpoint accepted_results (accepted : list value) : list str :=
  match accepted with
  | [] => []
  | VStr result :: rest =>
      if 0 <? length result
      then lower result :: accepted_results rest
      else accepted_results rest
  | _ :: rest => accepted_results rest
  end.

Definition str_in (x : str) (l : list str) : bool := existsb (str_eqb x) l.

(** Lines 144-151: [true] stands for [return True], [false] for the loop
    running to its end.  The keys and values of [result_info] are [str],
    so the [isinstance] tests of lines 145-146 hold. *)
Fixpoint verify_items (method : str) (accepted_set : list str)
         (items : list (str * str)) : exc bool :=
  match items with
  | [] => Ok false
  | (auth_method, auth_result) :: rest =>
      clean_method <- remove_comments (VStr auth_method) ;;
      if str_eqb (lower clean_method) method then
        clean_result <- remove_comments (VStr auth_result) ;;
        if str_in (lower clean_result) accepted_set then Ok true
        else verify_items method accepted_set rest
      else verify_items method accepted_set rest
  end.

(** Lines 134-152. *)
Fixpoint verify_loop (method : str) (accepted_set : list str)
         (authserv_domain : str) (headers : list value) : exc bool :=
  match headers with
  | [] => Ok false
  | VStr header :: rest =>
      let (authserv_id, result_info) := parse_header header in
      authserv_id <- remove_comments (VStr authserv_id) ;;
      let authserv_id := lower authserv_id in
      if endswith authserv_id authserv_domain then
        found <- verify_items method accepted_set result_info ;;
        if found then Ok true
        else verify_loop method accepted_set authserv_domain rest
      else verify_loop method accepted_set authserv_domain rest
  | _ :: rest => verify_loop method accepted_set authserv_domain rest
  end.

Definition verify_headers (headers method accepted authserv_domain : value)
  : exc bool :=
  n <- py_len headers ;;
  if n <=? 0 then Ok false
  else
    match method with
    | VStr method =>
        if length method <=? 0 then Ok false
        else
          let method := lower method in
          results <- py_iter accepted ;;
          let accepted_set := accepted_results results in
          if length accepted_set <=? 0 then Ok false
          else
            match authserv_domain with
            | VStr authserv_domain =>
                let authserv_domain := lower authserv_domain in
                header_list <- py_iter headers ;;
                verify_loop method accepted_set authserv_domain header_list
            | _ => Ok false
            end
    | _ => Ok false
    end.

(** ** [deflect] (main.py, lines 225-270) *)

(** [get_mail_headers] on an inbound message. *)
Definition get_mail_headers (mail_message : InboundEmailMessage) : value :=
  VList (authentication_results mail_message).

(** The loop of lines 168-169:
    [while not isinstance(result, str): result = result.decode()]. *)
Fixpoint decode_loop (result : payload) : exc str :=
  match result with
  | PText s => Ok s
  | PDecodes next => decode_loop next
  | PRaises e => Raise e
  end.

(** [get_first_body] on an inbound message, for the bodies of the content
    type asked for: the first body, decoded, or [""]. *)
Definition get_first_body (bodies : list payload) : exc str :=
  match bodies with
  | body :: _ => decode_loop body
  | [] => Ok []
  end.

Definition failure_line (method : str) : str :=
  py "This email failed " ++ upper method ++ py " authentication." ++ [newline].

(** Lines 245-250, with [text_body] the list being appended to. *)
Fixpoint collect_failures (headers : value) (methods : list str)
         (text_body : list str) : exc (list str) :=
  match methods with
  | [] => Ok text_body
  | method :: rest =>
      verified <- verify_headers headers (VStr method) _DEFAULT_ACCEPT
                                 (VStr (py "mx.google.com")) ;;
      if negb verified then
        let text_body :=
          if 0 <? length text_body then text_body ++ [[newline]]
          else text_body in
        collect_failures headers rest (text_body ++ [failure_line method])
      else collect_failures headers rest text_body
  end.

(** Lines 243-256. *)
Definition build_text_body (mail_message : InboundEmailMessage) : exc str :=
  let headers := get_mail_headers mail_message in
  text_body <- collect_failures headers [py "spf"; py "dkim"] [] ;;
  if length text_body <=? 0
  then get_first_body (text_plain_bodies mail_message)
  else
    let text_body := text_body ++ [[newline]] in
    first_body <- get_first_body (text_plain_bodies mail_message) ;;
    Ok (concat (text_body ++ [first_body])).

Definition nonempty_str (v : value) : bool :=
  match v with
  | VStr s => negb (length s <=? 0)
  | _ => false
  end.

(** [except apiproxy_errors.OverQuotaError]. *)
Definition is_over_quota (e : exn) : bool :=
  match e with
  | OtherError name => str_eqb name (py "OverQuotaError")
  | TypeError => false
  end.

(** [deflect]: [None] when the handler returns before sending, otherwise
    the message given to [mail.send_mail_to_admins], which returned or
    raised the quota error that is logged; any other exception of the
    call, and those of decoding a body, leave the handler.
    [support_address] stands for
    [get_email_address_for_route('email.support')]. *)
Definition deflect (mail_message : InboundEmailMessage)
  : exc (option SentMail) :=
  let sender_ := match sender mail_message with Some v => v | None => VStr [] end in
  let subject_ := match subject mail_message with Some v => v | None => VStr [] end in
  if negb (nonempty_str sender_) || negb (nonempty_str subject_) then Ok None
  else
    let origin :=
      match reply_to mail_message with Some v => v | None => sender_ end in
    if negb (is_email_valid origin) then Ok None
    else
      text_body <- build_text_body mail_message ;;
      html_body <- get_first_body (text_html_bodies mail_message) ;;
      let sent := {| sent_sender := support_address;
                     sent_subject := subject_;
                     sent_body := text_body;
                     sent_reply_to := origin;
                     sent_html := if 0 <? length html_body
                                  then Some html_body else None |} in
      match send_mail_to_admins sent with
      | None => Ok (Some sent)
      | Some e => if is_over_quota e then Ok (Some sent) else Raise e
      end.

(** ** Specification-side notions *)

(** The [key=value] parts of a header value as written, in order,
    before they are stored in the mapping. *)
Definition written_pairs (header : str) : list (str * str) :=
  match parseparam (semicolon :: header) with
  | _ :: parts =>
      flat_map (fun p => match param_pair p with
                         | Some kv => [kv]
                         | None => []
                         end) parts
  | [] => []
  end.

(** The pair that one part of a header value is written with, if any. *)
Definition part_pairs (p : str) : list (str * str) :=
  match param_pair p with
  | Some kv => [kv]
  | None => []
  end.

(** A pair names [method] and carries a result of [accepted_set], both
    compared after comment stripping and lowercasing. *)
Definition pair_accepted (method : str) (accepted_set : list str)
           (kv : str * str) : bool :=
  str_eqb (lower (remove_comments_str (fst kv))) method
  && str_in (lower (remove_comments_str (snd kv))) accepted_set.

(** The comment-stripped, lowercased authserv-id of a header value. *)
Definition authserv_id_of (header : str) : str :=
  lower (remove_comments_str (fst (parse_header header))).

Definition header_accepted (method : str) (accepted_set : list str)
           (authserv_domain : str) (header : value) : bool :=
  match header with
  | VStr header =>
      endswith (authserv_id_of header) authserv_domain
      && existsb (pair_accepted method accepted_set) (snd (parse_header header))
  | _ => false
  end.

(** The same condition in the words of the specification. *)
Definition header_satisfies (method : str) (accepted_set : list str)
           (authserv_domain : str) (header : str) : Prop :=
  endswith (authserv_id_of header) authserv_domain = true
  /\ exists key val,
      In (key, val) (snd (parse_header header))
      /\ lower (remove_comments_str key) = method
      /\ In (lower (remove_comments_str val)) accepted_set.

(** Nesting level reached after reading [s]: the opening parentheses
    minus the closing ones. *)
Definition delta (c : char) : Z :=
  if char_eqb c lparen then 1 else if char_eqb c rparen then -1 else 0.

Fixpoint depth (s : str) : Z :=
  match s with
  | [] => 0
  | c :: s' => (delta c + depth s')%Z
  end.

(** A character that can begin the content: neither whitespace nor one
    of the parentheses that drive the nesting level. *)
Definition start_char (c : char) : bool :=
  negb (isspace c) && negb (char_eqb c lparen) && negb (char_eqb c rparen).

(** A character that continues the content: not whitespace and not ['(']. *)
Definition token_char (c : char) : bool :=
  negb (isspace c) && negb (char_eqb c lparen).

(** Index [j] of [s] holds a content-start character at a nesting level
    of at most zero, when the scan enters [s] at level [n]. *)
Definition start_at (n : Z) (s : str) (j : nat) : Prop :=
  exists c, nth_error s j = Some c /\ start_char c = true
            /\ (n + depth (firstn j s) <= 0)%Z.

(** What the first loop computes on [rest] entered at index [i] and
    level [n]: it stops at [k], before the first content start. *)
Definition leading_result (rest : str) (i : nat) (n : Z) (k : nat) : Prop :=
  exists pre post,
    rest = pre ++ post /\ k = i + length pre
    /\ (forall j, j < length pre -> ~ start_at n rest j)
    /\ (post = [] \/ start_at n rest (length pre)).

Definition content_start (content : str) (i : nat) : Prop :=
  start_at 0 content i /\ forall k, k < i -> ~ start_at 0 content k.

(** [j] is the end of the run of content characters beginning at [i]. *)
Definition content_end (content : str) (i j : nat) : Prop :=
  i <= j <= length content
  /\ (forall k c, i <= k < j -> nth_error content k = Some c -> token_char c = true)
  /\ (forall c, nth_error content j = Some c -> token_char c = false).

(** The text between a ['('] and its matching [')']. *)
Inductive comment_text : str -> Prop :=
| ct_nil : comment_text []
| ct_char : forall c s,
    char_eqb c lparen = false -> char_eqb c rparen = false ->
    comment_text s -> comment_text (c :: s)
| ct_nest : forall a s,
    comment_text a -> comment_text s ->
    comment_text (lparen :: a ++ rparen :: s).

(** A string made of balanced parenthesized comments and whitespace only. *)
Inductive only_comments : str -> Prop :=
| oc_nil : only_comments []
| oc_space : forall c s,
    isspace c = true -> only_comments s -> only_comments (c :: s)
| oc_comment : forall a s,
    comment_text a -> only_comments s ->
    only_comments (lparen :: a ++ rparen :: s).

Definition substring (r s : str) : Prop :=
  exists pre post, s = pre ++ r ++ post.

(** A method fails for the forwarding shell when [verify_headers], called
    with its default arguments, does not return [True]. *)
Definition spec_fails (headers : value) (method : str) : bool :=
  match verify_headers headers (VStr method) _DEFAULT_ACCEPT
                       (VStr (py "mx.google.com")) with
  | Ok true => false
  | _ => true
  end.

(** The text that a body part holds once decoded. *)
Inductive decodes_to : payload -> str -> Prop :=
| decodes_text : forall s, decodes_to (PText s) s
| decodes_next : forall next s, decodes_to next s -> decodes_to (PDecodes next) s.


(** The first body part of a content type, decoded; the empty string
    when the message has no part of that type. *)
Definition first_text (bodies : list payload) (body : str) : Prop :=
  match bodies with
  | part :: _ => decodes_to part body
  | [] => body = []
  end.


(** The failure note of the specification, without line terminator. *)
Definition spec_note (method : str) : str :=
  py "This email failed " ++ upper method ++ py " authentication.".

Definition blank_line : str := [newline; newline].

(** The notes joined with a blank line. *)
Fixpoint spec_join (notes : list str) : str :=
  match notes with
  | [] => []
  | [note] => note
  | note :: rest => note ++ blank_line ++ spec_join rest
  end.

(** The forwarded body as the specification words it. *)
Definition spec_body (notes : list str) (first_body : str) : str :=
  match notes with
  | [] => first_body
  | _ => spec_join notes ++ blank_line ++ first_body
  end.

(** ** The route constants and [get_email_address_for_route]
       (main.py, lines 17-32 and 173-192) *)

(** [s.rfind(sub)]: the highest index at which [sub] occurs, or [-1]. *)
Fixpoint rfind_at (sub s : str) (i : nat) : Z :=
  match s with
  | [] => if is_prefix sub [] then Z.of_nat i else (-1)%Z
  | _ :: s' =>
      let r := rfind_at sub s' (S i) in
      if (r >=? 0)%Z then r
      else if is_prefix sub s then Z.of_nat i else (-1)%Z
  end.

Definition rfind (s sub : str) : Z := rfind_at sub s 0.

(** [mail.INCOMING_MAIL_URL_PATTERN] of the App Engine SDK; test_main.py
    asserts the prefix computed from it. *)
Definition INCOMING_MAIL_URL_PATTERN : str := py "/_ah/mail/.+".

(** Lines 30-31; the index is not negative here, so the slice keeps the
    characters before it. *)
Definition _ROUTE_PREFIX : str :=
  slice INCOMING_MAIL_URL_PATTERN 0
        (Z.to_nat (rfind INCOMING_MAIL_URL_PATTERN (py "/"))).

(** Lines 26-27, for the application name read from the environment. *)
Definition _MAIL_DOMAIN (_APP_NAME : str) : str :=
  py "@" ++ lower _APP_NAME ++ py ".appspotmail.com".

(** The outcome of [get_email_address_for_route]: the address, or the
    [ValueError] with its message. *)
Inductive route_result : Type :=
| Address : str -> route_result
| ValueError : str -> route_result.

(** Lines 186-192, for [uri] the unquoted result of [flask.url_for]. *)
Definition get_email_address_for_route (uri : str) : route_result :=
  if negb (is_prefix (_ROUTE_PREFIX ++ py "/") uri)
  then ValueError (py "Invalid mail handler route: " ++ uri)
  else Address (skipn 10 uri).

(** ** [get_mail_headers] on any argument (main.py, lines 34-54) *)

(** The arguments that [get_mail_headers] tells apart: a
    [mail.InboundEmailMessage] with its [original] attribute, an
    [email.message.Message] with the [header_fetch_parse] of its policy
    and its list of headers, and any other value. *)
Inductive mail_object : Type :=
| InboundObject (original : mail_object)
| MessageObject (header_fetch_parse : str -> value -> value)
                (headers : list (str * value))
| OtherObject (v : value).

(** The loop of [Message.get_all] (standard library), for [name]
    already lowercased. *)
Fixpoint get_all_values (header_fetch_parse : str -> value -> value)
         (headers : list (str * value)) (name : str) : list value :=
  match headers with
  | [] => []
  | (k, v) :: rest =>
      if str_eqb (lower k) name
      then header_fetch_parse k v :: get_all_values header_fetch_parse rest name
      else get_all_values header_fetch_parse rest name
  end.

(** [Message.get_all(name, failobj)]. *)
Definition get_all (header_fetch_parse : str -> value -> value)
           (headers : list (str * value)) (name : str)
           (failobj : list value) : list value :=
  let values := get_all_values header_fetch_parse headers (lower name) in
  match values with
  | [] => failobj
  | _ => values
  end.

Definition get_mail_headers_of (mail_message : mail_object)
           (header_name : value) : list value :=
  let mail_message :=
    match mail_message with
    | InboundObject original => original
    | _ => mail_message
    end in
  match mail_message with
  | MessageObject header_fetch_parse headers =>
      match header_name with
      | VStr header_name => get_all header_fetch_parse headers header_name []
      | _ => []
      end
  | _ => []
  end.

(** The message [m] with one more Authentication-Results value in front. *)
Definition with_header (h : value) (m : InboundEmailMessage)
  : InboundEmailMessage :=
  {| sender := sender m;
     subject := subject m;
     reply_to := reply_to m;
     authentication_results := h :: authentication_results m;
     text_plain_bodies := text_plain_bodies m;
     text_html_bodies := text_html_bodies m |}.

(** The reply address [deflect] uses: [reply_to] when the message has
    one, else the sender. *)
Definition origin_of (m : InboundEmailMessage) : value :=
  match reply_to m with
  | Some v => v
  | None => match sender m with Some v => v | None => VStr [] end
  end.

(** [getattr(mail_message, name, '')]. *)
Definition attribute (a : option value) : value :=
  match a with Some v => v | None => VStr [] end.

(** The tests of lines 231-238 that let a message through. *)
Definition forwardable (m : InboundEmailMessage) : bool :=
  nonempty_str (attribute (sender m))
  && nonempty_str (attribute (subject m))
  && is_email_valid (origin_of m).

(** The message that [deflect] hands over, for the decoded first
    plain-text and HTML bodies. *)
Definition sent_message (m : InboundEmailMessage) (body html : str)
  : SentMail :=
  {| sent_sender := support_address;
     sent_subject := attribute (subject m);
     sent_body :=
       spec_body
         (map spec_note
              (filter (spec_fails (get_mail_headers m))
                      [py "spf"; py "dkim"]))
         body;
     sent_reply_to := origin_of m;
     sent_html := if 0 <? length html then Some html else None |}.

(** The call of [send_mail_to_admins] lets the handler go on: it
    returns, or raises the quota error. *)
Definition send_passes (sent : SentMail) : bool :=
  match send_mail_to_admins sent with
  | None => true
  | Some e => is_over_quota e
  end.

(** The two failure lines of [deflect], for the methods that fail. *)
Definition spf_note : str := py "This email failed SPF authentication.".
Definition dkim_note : str := py "This email failed DKIM authentication.".

(** * Properties *)

Lemma char_eqb_eq (a b : char) : char_eqb a b = true <-> a = b.
Proof. apply N.eqb_eq. Qed.

Lemma char_eqb_refl (a : char) : char_eqb a a = true.
Proof. apply N.eqb_refl. Qed.

Lemma str_eqb_eq (a b : str) : str_eqb a b = true <-> a = b.
Proof.
  drop_params.
  revert b; induction a as [|x a IH]; intros [|y b]; simpl;
    try (split; [discriminate | discriminate]); try tauto.
  rewrite andb_true_iff, char_eqb_eq, IH.
  split; [intros [-> ->]; reflexivity | intros E; inversion E; auto].
Qed.

Lemma str_eqb_refl (a : str) : str_eqb a a = true.
Proof. apply str_eqb_eq; reflexivity. Qed.

(** ** The two loops of [remove_comments] *)

Lemma start_at_0 n c s :
  start_at n (c :: s) 0 <-> start_char c = true /\ (n <= 0)%Z.
Proof.
  unfold start_at; simpl; split.
  - intros (c' & E & Hc & Hn). inversion E; subst. split; [assumption | lia].
  - intros [Hc Hn]. exists c. repeat split; [assumption | lia].
Qed.

Lemma start_at_S n c s j :
  start_at n (c :: s) (S j) <-> start_at (n + delta c) s j.
Proof.
  unfold start_at; simpl; split; intros (c' & E & Hc & Hn);
    exists c'; repeat split; try assumption; lia.
Qed.

Lemma leading_stop c rest i n :
  start_at n (c :: rest) 0 -> leading_result (c :: rest) i n i.
Proof.
  intros H. exists [], (c :: rest). simpl.
  repeat split; [lia | intros j Hj; lia | right; assumption].
Qed.

Lemma leading_skip c rest i n k :
  leading_result rest (S i) (n + delta c) k ->
  ~ start_at n (c :: rest) 0 ->
  leading_result (c :: rest) i n k.
Proof.
  intros (pre & post & E & Hk & Hno & Hpost) H0.
  exists (c :: pre), post. simpl. repeat split.
  - now rewrite E.
  - lia.
  - intros [|j] Hj; [assumption |].
    rewrite start_at_S. apply Hno. lia.
  - destruct Hpost as [-> | Hs]; [left; reflexivity | right].
    now rewrite start_at_S.
Qed.

Lemma skip_leading_spec rest :
  forall i n, leading_result rest i n (skip_leading rest i n).
Proof.
  induction rest as [|c rest IH]; intros i n; simpl.
  - exists [], []. simpl. repeat split; [lia | intros j Hj; lia | now left].
  - destruct (char_eqb c lparen) eqn:El.
    { apply leading_skip.
      - replace (n + delta c)%Z with (n + 1)%Z
          by (unfold delta; now rewrite El). apply IH.
      - rewrite start_at_0. unfold start_char. rewrite El.
        rewrite andb_false_r. simpl. intros [H _]; discriminate. }
    destruct (char_eqb c rparen) eqn:Er.
    { apply leading_skip.
      - replace (n + delta c)%Z with (n - 1)%Z
          by (unfold delta; rewrite El, Er; lia). apply IH.
      - rewrite start_at_0. unfold start_char. rewrite Er.
        rewrite andb_false_r. intros [H _]; discriminate. }
    destruct (negb (isspace c) && (n <=? 0)%Z) eqn:Eb.
    + apply andb_true_iff in Eb. destruct Eb as [Hs Hn].
      apply leading_stop. rewrite start_at_0. unfold start_char.
      rewrite Hs, El, Er. split; [reflexivity | now apply Z.leb_le].
    + apply leading_skip.
      * replace (n + delta c)%Z with n
          by (unfold delta; rewrite El, Er; lia). apply IH.
      * rewrite start_at_0. unfold start_char. intros [Hc Hn].
        apply Z.leb_le in Hn. rewrite Hn in Eb.
        rewrite !andb_true_iff in Hc. destruct Hc as [[Hs _] _].
        rewrite Hs in Eb. discriminate.
Qed.

Lemma skip_token_spec rest :
  forall i, exists tok post,
    rest = tok ++ post /\ skip_token rest i = i + length tok
    /\ forallb token_char tok = true
    /\ match post with [] => True | c :: _ => token_char c = false end.
Proof.
  induction rest as [|c rest IH]; intros i; simpl.
  - exists [], []. simpl. repeat split; lia.
  - fold (token_char c). destruct (token_char c) eqn:Et.
    + destruct (IH (S i)) as (tok & post & E & Hk & Ht & Hp).
      exists (c :: tok), post. simpl. rewrite Et, Ht, Hk, E.
      repeat split; [lia | assumption].
    + exists [], (c :: rest). simpl. repeat split; [lia | assumption].
Qed.

Lemma start_char_token c : start_char c = true -> token_char c = true.
Proof.
  drop_params.
  unfold start_char, token_char. rewrite !andb_true_iff. tauto.
Qed.

Lemma slice_middle (pre tok post : str) :
  slice (pre ++ tok ++ post) (length pre) (length pre + length tok) = tok.
Proof.
  unfold slice. rewrite skipn_app, skipn_all, Nat.sub_diag. simpl.
  replace (length pre + length tok - length pre) with (length tok) by lia.
  rewrite firstn_app, firstn_all, Nat.sub_diag. simpl. apply app_nil_r.
Qed.

(** The result of [remove_comments] sits between the skipped leading
    part and the rest; this one decomposition carries everything the
    later statements need. *)
Lemma remove_comments_decomp content :
  exists pre post,
    content = pre ++ remove_comments_str content ++ post
    /\ (forall j, j < length pre -> ~ start_at 0 content j)
    /\ (remove_comments_str content = [] -> forall j, ~ start_at 0 content j)
    /\ (remove_comments_str content <> [] -> start_at 0 content (length pre))
    /\ forallb token_char (remove_comments_str content) = true
    /\ match post with [] => True | c :: _ => token_char c = false end.
Proof.
  unfold remove_comments_str.
  destruct content as [|c0 content0].
  { exists [], []. simpl. repeat split; auto; try (intros j Hj; lia).
    - intros _ j (c & E & _). destruct j; discriminate.
    - intros H; now elim H. }
  change (length (c0 :: content0) <=? 0) with false. cbv iota.
  generalize (c0 :: content0) as content. clear c0 content0. intros content.
  destruct (skip_leading_spec content 0 0) as (pre & rest & E & Hk & Hno & Hrest).
  rewrite Nat.add_0_l in Hk. cbv zeta. rewrite Hk.
  assert (Hskip : skipn (length pre) content = rest).
  { rewrite E, skipn_app, skipn_all, Nat.sub_diag. reflexivity. }
  rewrite Hskip.
  destruct (skip_token_spec rest (length pre)) as (tok & post & E' & Hk' & Ht & Hp).
  rewrite Hk'.
  assert (Hres : slice content (length pre) (length pre + length tok) = tok).
  { rewrite E, E'. apply slice_middle. }
  rewrite Hres.
  exists pre, post. repeat split; try assumption.
  - now rewrite E, E'.
  - intros -> j Hj. simpl in E'. subst post.
    destruct Hrest as [-> | (c & Hn & Hc & _)].
    + destruct (Nat.lt_ge_cases j (length pre)) as [Hlt | Hge].
      * exact (Hno j Hlt Hj).
      * destruct Hj as (c & Hn & _).
        rewrite E, app_nil_r in Hn.
        apply nth_error_None in Hge. congruence.
    + rewrite E, nth_error_app2, Nat.sub_diag in Hn by lia.
      destruct rest as [|c' rest']; [discriminate |].
      simpl in Hn. inversion Hn; subst c'.
      apply start_char_token in Hc. simpl in Hp. congruence.
  - intros Hne. destruct Hrest as [-> | Hs]; [| assumption].
    destruct tok; [now elim Hne | discriminate].
Qed.

Lemma skip_token_all tok :
  forallb token_char tok = true ->
  forall i, skip_token tok i = i + length tok.
Proof.
  induction tok as [|c tok IH]; simpl; intros H i; [lia |].
  apply andb_true_iff in H. destruct H as [Hc Ht].
  fold (token_char c). rewrite Hc, (IH Ht). lia.
Qed.

(** A string that begins with a content-start character and holds
    content characters only is its own result. *)
Lemma remove_comments_token c tok :
  start_char c = true -> forallb token_char (c :: tok) = true ->
  remove_comments_str (c :: tok) = c :: tok.
Proof.
  intros Hc Ht. unfold remove_comments_str.
  change (length (c :: tok) <=? 0) with false. cbv iota zeta.
  assert (Hs : skip_leading (c :: tok) 0 0 = 0).
  { unfold start_char in Hc. rewrite !andb_true_iff, !negb_true_iff in Hc.
    destruct Hc as [[Hs Hl] Hr]. simpl. now rewrite Hl, Hr, Hs. }
  rewrite Hs. change (skipn 0 (c :: tok)) with (c :: tok).
  rewrite (skip_token_all _ Ht). unfold slice.
  change (skipn 0 (c :: tok)) with (c :: tok).
  rewrite Nat.add_0_l, Nat.sub_0_r. apply firstn_all.
Qed.

Lemma isspace_not_paren c :
  isspace c = true -> char_eqb c lparen = false /\ char_eqb c rparen = false.
Proof.
  intros H. split.
  - destruct (char_eqb c lparen) eqn:E; [| reflexivity].
    apply char_eqb_eq in E. subst c. discriminate.
  - destruct (char_eqb c rparen) eqn:E; [| reflexivity].
    apply char_eqb_eq in E. subst c. discriminate.
Qed.

(** Inside a comment the first loop runs up to the closing parenthesis. *)
Lemma skip_leading_comment a :
  comment_text a ->
  forall rest i n, (1 <= n)%Z ->
    skip_leading (a ++ rparen :: rest) i n
    = skip_leading rest (i + length a + 1) (n - 1).
Proof.
  induction 1 as [| c s Hl Hr Hs IH | a s Ha IHa Hs IHs]; intros rest i n Hn.
  - simpl. f_equal. lia.
  - simpl. rewrite Hl, Hr.
    replace (n <=? 0)%Z with false by (symmetry; apply Z.leb_gt; lia).
    rewrite andb_false_r, IH by assumption. f_equal. lia.
  - simpl. rewrite <- app_assoc. simpl.
    rewrite IHa by lia. rewrite IHs by lia.
    rewrite length_app. simpl. f_equal; lia.
Qed.

Lemma skip_leading_only_comments s :
  only_comments s -> forall i, skip_leading s i 0 = i + length s.
Proof.
  induction 1 as [| c s Hc Hs IH | a s Ha Hs IH]; intros i.
  - simpl. lia.
  - simpl. destruct (isspace_not_paren c Hc) as [-> ->].
    rewrite Hc. simpl. rewrite IH. lia.
  - simpl. rewrite skip_leading_comment by (assumption || lia).
    simpl. rewrite IH, length_app. simpl. lia.
Qed.

(** C2: [remove_comments] returns the first run of content characters:
    the substring from the first character that is neither whitespace nor
    a parenthesis and stands at nesting level at most zero, up to the next
    whitespace or ['('] (the empty string when there is no such
    character); a string without parentheses and whitespace is returned
    unchanged, and one made of balanced comments and whitespace gives
    the empty string. *)
Theorem remove_comments_first_run (content : str) :
  ((exists i j, content_start content i /\ content_end content i j
                /\ remove_comments_str content = slice content i j)
   \/ ((forall i, ~ start_at 0 content i) /\ remove_comments_str content = []))
  /\ (forallb start_char content = true -> remove_comments_str content = content)
  /\ (only_comments content -> remove_comments_str content = []).
Proof.
  drop_params.
  split; [| split].
  - destruct (remove_comments_decomp content)
      as (pre & post & E & Hno & Hnil & Hstart & Htok & Hpost).
    remember (remove_comments_str content) as tok eqn:Etok.
    destruct tok as [|c tok].
    + right. split; [apply Hnil |]; reflexivity.
    + left. exists (length pre), (length pre + length (c :: tok)).
      split; [| split].
      * split; [apply Hstart; discriminate | exact Hno].
      * split; [| split].
        -- rewrite E, !length_app. lia.
        -- intros k c' Hk Hn.
           rewrite E, nth_error_app2 in Hn by lia.
           rewrite nth_error_app1 in Hn by lia.
           apply nth_error_In in Hn.
           rewrite forallb_forall in Htok. now apply Htok.
        -- intros c' Hn.
           rewrite E, nth_error_app2 in Hn by lia.
           rewrite nth_error_app2 in Hn by lia.
           replace (length pre + length (c :: tok) - length pre
                    - length (c :: tok)) with 0 in Hn by lia.
           destruct post as [|p post]; [discriminate |].
           simpl in Hn. inversion Hn; subst. assumption.
      * rewrite E. symmetry. apply slice_middle.
  - destruct content as [|c tok]; [reflexivity |].
    intros H. apply remove_comments_token.
    + simpl in H. apply andb_true_iff in H. tauto.
    + rewrite forallb_forall in *. intros x Hx.
      apply start_char_token. now apply H.
  - intros H. unfold remove_comments_str.
    destruct (length content <=? 0); [reflexivity |]. cbv zeta.
    rewrite (skip_leading_only_comments _ H). simpl.
    rewrite skipn_all. simpl. unfold slice.
    now rewrite Nat.sub_diag.
Qed.

(** C8: [remove_comments] raises [TypeError] exactly on the arguments
    that are not strings; on every string it returns. *)
Theorem remove_comments_type_error (content : value) :
  (remove_comments content = Raise TypeError <-> is_str content = false)
  /\ (forall s, content = VStr s ->
                remove_comments content = Ok (remove_comments_str s)).
Proof.
  split.
  - destruct content; simpl; split; intros H;
      try reflexivity; discriminate.
  - intros s ->. reflexivity.
Qed.

(** C9: [remove_comments] is idempotent. *)
Theorem remove_comments_idempotent (content : str) :
  remove_comments_str (remove_comments_str content)
  = remove_comments_str content.
Proof.
  destruct (remove_comments_decomp content)
    as (pre & post & E & _ & _ & Hstart & Htok & _).
  remember (remove_comments_str content) as tok eqn:Etok.
  destruct tok as [|c tok]; [reflexivity |].
  apply remove_comments_token; [| assumption].
  destruct Hstart as (c' & Hn & Hc & _); [discriminate |].
  rewrite E, nth_error_app2, Nat.sub_diag in Hn by lia.
  simpl in Hn. inversion Hn; subst. assumption.
Qed.

(** C10: the result of [remove_comments] is a contiguous substring of
    its argument and holds neither whitespace nor ['(']; a [')'] can
    occur in it. *)
Theorem remove_comments_substring :
  (forall content,
      substring (remove_comments_str content) content
      /\ forall c, In c (remove_comments_str content) ->
                   isspace c = false /\ c <> lparen)
  /\ exists content, In rparen (remove_comments_str content).
Proof.
  drop_params.
  split.
  - intros content.
    destruct (remove_comments_decomp content)
      as (pre & post & E & _ & _ & _ & Htok & _).
    split; [exists pre, post; exact E |].
    intros c Hc. rewrite forallb_forall in Htok.
    specialize (Htok c Hc). unfold token_char in Htok.
    rewrite andb_true_iff, !negb_true_iff in Htok.
    destruct Htok as [Hs Hl]. split; [assumption |].
    intros ->. discriminate.
  - exists (py "a)b"). simpl. tauto.
Qed.

(** ** The loops of [_parseparam] end within their fuel *)

Lemma find_at_range sub s : sub <> [] ->
  forall i, find_at sub s i = (-1)%Z
            \/ (Z.of_nat i <= find_at sub s i < Z.of_nat (i + length s))%Z.
Proof.
  intros Hsub. induction s as [|c s IH]; intros i; simpl.
  - destruct sub; [now elim Hsub | now left].
  - destruct (is_prefix sub (c :: s)); [right; lia |].
    destruct (IH (S i)) as [E | E]; [now left | right; lia].
Qed.

Lemma find_from_range s sub start : sub <> [] ->
  find_from s sub start = (-1)%Z
  \/ (Z.of_nat start <= find_from s sub start < Z.of_nat (length s))%Z.
Proof.
  intros Hsub. unfold find_from.
  destruct (length s <? start) eqn:E; [now left |].
  apply Nat.ltb_ge in E.
  destruct (find_at_range sub (skipn start s) Hsub start) as [H | H];
    [now left | right].
  rewrite length_skipn in H. lia.
Qed.

(** The inner loop leaves through its test, not for want of fuel. *)
Lemma parseparam_end_exit s fuel :
  forall end_,
    (end_ <= 0 \/ (end_ < Z.of_nat (length s)
                   /\ Z.of_nat (length s) - end_ < Z.of_nat fuel))%Z ->
    (parseparam_end fuel s end_ >? 0)%Z
    && quote_open s (parseparam_end fuel s end_) = false.
Proof.
  induction fuel as [|fuel IH]; intros end_ H; simpl.
  - destruct H as [H | H]; [| lia].
    replace (end_ >? 0)%Z with false by (symmetry; rewrite Z.gtb_ltb; apply Z.ltb_ge; lia).
    reflexivity.
  - destruct ((end_ >? 0)%Z && quote_open s end_) eqn:E; [| exact E].
    apply IH. apply andb_true_iff in E. destruct E as [E _].
    apply Z.gtb_lt in E.
    destruct H as [H | [H1 H2]]; [lia |].
    destruct (find_from_range s [semicolon] (Z.to_nat (end_ + 1)))
      as [F | F]; [discriminate | left; lia | right; lia].
Qed.

Lemma parseparam_step_exit s :
  let end_ := parseparam_end (S (length s)) s (find s [semicolon]) in
  (end_ >? 0)%Z && quote_open s end_ = false.
Proof.
  apply parseparam_end_exit. unfold find.
  destruct (find_from_range s [semicolon] 0) as [F | F];
    [discriminate | left; lia | right; lia].
Qed.

Lemma parseparam_step_shorter s : length (snd (parseparam_step s)) <= length s.
Proof.
  unfold parseparam_step. cbn [snd]. rewrite length_skipn. lia.
Qed.

(** More fuel than the length of the text changes nothing. *)
Lemma parseparam_loop_fuel fuel1 :
  forall fuel2 s, length s < fuel1 -> length s < fuel2 ->
                  parseparam_loop fuel1 s = parseparam_loop fuel2 s.
Proof.
  induction fuel1 as [|fuel1 IH]; intros fuel2 s H1 H2; [lia |].
  destruct fuel2 as [|fuel2]; [lia |].
  destruct s as [|c s]; [reflexivity |].
  cbn [parseparam_loop].
  destruct (char_eqb c semicolon); [| reflexivity].
  pose proof (parseparam_step_shorter s) as Hs.
  destruct (parseparam_step s) as [f s2]. cbn [snd] in Hs.
  f_equal. apply IH; simpl in *; lia.
Qed.

(** ** [verify_headers] in closed form *)

Arguments parse_header : simpl never.
Arguments remove_comments_str : simpl never.
Arguments lower : simpl never.
Arguments endswith : simpl never.

Lemma str_in_In x l : str_in x l = true <-> In x l.
Proof.
  unfold str_in. rewrite existsb_exists. split.
  - intros (y & Hy & E). apply str_eqb_eq in E. now subst.
  - intros H. exists x. split; [assumption | apply str_eqb_refl].
Qed.

Lemma verify_items_closed method accepted_set items :
  verify_items method accepted_set items
  = Ok (existsb (pair_accepted method accepted_set) items).
Proof.
  induction items as [|[k v] items IH]; simpl; [reflexivity |].
  unfold pair_accepted at 1. simpl.
  destruct (str_eqb (lower (remove_comments_str k)) method); simpl;
    [| exact IH].
  destruct (str_in (lower (remove_comments_str v)) accepted_set); simpl;
    [reflexivity | exact IH].
Qed.

Lemma verify_loop_closed method accepted_set authserv_domain headers :
  verify_loop method accepted_set authserv_domain headers
  = Ok (existsb (header_accepted method accepted_set authserv_domain) headers).
Proof.
  induction headers as [|h headers IH]; [reflexivity |].
  cbn [verify_loop existsb].
  destruct h; cbn [header_accepted orb]; try exact IH.
  unfold authserv_id_of.
  destruct (parse_header s) as [authserv_id result_info].
  cbn [fst snd remove_comments bind].
  destruct (endswith _ _); cbn [andb orb]; [| exact IH].
  rewrite verify_items_closed. cbn [bind].
  destruct (existsb _ result_info); cbn [orb]; [reflexivity | exact IH].
Qed.

Lemma py_iter_len v l : py_iter v = Ok l -> py_len v = Ok (length l).
Proof.
  destruct v; simpl; intros H; inversion H; subst;
    rewrite ?length_map; reflexivity.
Qed.

Lemma verify_headers_closed headers hs method accepted results domain :
  py_iter headers = Ok hs -> py_iter accepted = Ok results ->
  verify_headers headers method accepted domain
  = Ok (if length hs <=? 0 then false else
          match method with
          | VStr m =>
              if length m <=? 0 then false
              else if length (accepted_results results) <=? 0 then false
              else match domain with
                   | VStr d =>
                       existsb (header_accepted (lower m)
                                  (accepted_results results) (lower d)) hs
                   | _ => false
                   end
          | _ => false
          end).
Proof.
  intros Hh Ha. unfold verify_headers.
  rewrite (py_iter_len _ _ Hh). simpl.
  destruct (length hs <=? 0); [reflexivity |].
  destruct method; try reflexivity.
  destruct (length s <=? 0); [reflexivity |].
  rewrite Ha. simpl.
  destruct (length (accepted_results results) <=? 0); [reflexivity |].
  destruct domain; try reflexivity.
  rewrite Hh. simpl. apply verify_loop_closed.
Qed.

Lemma header_accepted_satisfies method accepted_set authserv_domain hs :
  existsb (header_accepted method accepted_set authserv_domain) hs = true
  <-> exists header,
      In (VStr header) hs
      /\ header_satisfies method accepted_set authserv_domain header.
Proof.
  rewrite existsb_exists. split.
  - intros (h & Hin & H). destruct h; try discriminate.
    simpl in H. apply andb_true_iff in H. destruct H as [Hd Hp].
    exists s. split; [assumption |]. split; [assumption |].
    apply existsb_exists in Hp. destruct Hp as ([k v] & Hkv & Hp).
    unfold pair_accepted in Hp. simpl in Hp.
    apply andb_true_iff in Hp. destruct Hp as [Hk Hv].
    exists k, v. repeat split;
      [assumption | now apply str_eqb_eq | now apply str_in_In].
  - intros (header & Hin & Hd & k & v & Hkv & Hk & Hv).
    exists (VStr header). split; [assumption |]. simpl.
    rewrite Hd. simpl. apply existsb_exists. exists (k, v).
    split; [assumption |]. unfold pair_accepted. simpl.
    apply andb_true_iff. split; [now apply str_eqb_eq | now apply str_in_In].
Qed.

Lemma length_leb_0 {A} (l : list A) : (length l <=? 0) = true <-> l = [].
Proof.
  destruct l; simpl; split; intros H; try reflexivity; discriminate.
Qed.

Lemma accepted_results_In results x :
  In x (accepted_results results)
  <-> exists r, In (VStr r) results /\ r <> [] /\ x = lower r.
Proof.
  drop_params.
  induction results as [|v results IH]; simpl.
  - split; [intros [] | intros (r & [] & _)].
  - assert (Hskip : (forall r, v <> VStr r \/ v = VStr []) ->
                    (In x (accepted_results results)
                     <-> exists r, (v = VStr r \/ In (VStr r) results)
                                   /\ r <> [] /\ x = lower r)).
    { intros Hv. rewrite IH. split.
      - intros (r & Hr & Hn & E). exists r. tauto.
      - intros (r & [E | Hr] & Hn & Ex); [| exists r; tauto].
        destruct (Hv r) as [H | H]; [now elim H |].
        rewrite H in E. inversion E. now elim Hn. }
    destruct v as [| z | s' | l | l]; try (apply Hskip; intros r; left; discriminate).
    destruct s' as [|c s'].
    + apply Hskip. intros r. now right.
    + change (0 <? length (c :: s')) with true. cbv iota. simpl. rewrite IH.
      split.
      * intros [E | (r & Hr & Hn & E)].
        -- exists (c :: s'). repeat split; [now left | discriminate | now symmetry].
        -- exists r. tauto.
      * intros (r & [E | Hr] & Hn & Ex).
        -- left. inversion E. now subst.
        -- right. exists r. tauto.
Qed.

(** X20: for a non-empty method and iterable arguments, [verify_headers]
    returns [True] exactly when some header value of the list has an
    authserv-id (comment-stripped, lowercased) ending with the lowercased
    domain and the mapping that [parse_header] returns for it, in which a
    repeated key keeps its last value, has an entry whose
    comment-stripped, lowercased
    key is the lowercased method and whose comment-stripped, lowercased
    value is in the lowercased accepted set; otherwise it returns
    [False].  One satisfying header value is enough, whatever the other
    header values are.  The accepted set holds the lowercased non-empty
    strings of [accepted]. *)
Theorem verify_headers_iff headers hs method accepted results domain :
  py_iter headers = Ok hs -> py_iter accepted = Ok results ->
  method <> [] ->
  (verify_headers headers (VStr method) accepted (VStr domain) = Ok true
   <-> exists header,
       In (VStr header) hs
       /\ header_satisfies (lower method) (accepted_results results)
                           (lower domain) header)
  /\ (verify_headers headers (VStr method) accepted (VStr domain) = Ok true
      \/ verify_headers headers (VStr method) accepted (VStr domain) = Ok false)
  /\ (forall x, In x (accepted_results results)
                <-> exists r, In (VStr r) results /\ r <> [] /\ x = lower r).
Proof.
  drop_params.
  intros Hh Ha Hm.
  rewrite <- and_assoc. split; [| apply accepted_results_In].
  rewrite (verify_headers_closed _ _ (VStr method) _ _ (VStr domain) Hh Ha).
  assert (Em : (length method <=? 0) = false).
  { destruct method; [now elim Hm | reflexivity]. }
  rewrite Em.
  destruct hs as [|h hs].
  { cbn [length Nat.leb]. split; [| now right].
    split; [discriminate | intros (x & [] & _)]. }
  change (length (h :: hs) <=? 0) with false. cbv iota.
  destruct (accepted_results results) as [|r rs] eqn:Er.
  { cbn [length Nat.leb]. split; [| now right].
    split; [discriminate |].
    intros (x & _ & _ & k & v & _ & _ & []). }
  change (length (r :: rs) <=? 0) with false. cbv iota.
  rewrite <- header_accepted_satisfies.
  destruct (existsb _ (h :: hs)).
  - split; [tauto | now left].
  - split; [| now right]. split; intros H; discriminate.
Qed.

Lemma accepted_results_nil results :
  (forall r, In (VStr r) results -> r = []) -> accepted_results results = [].
Proof.
  intros H. destruct (accepted_results results) as [|x xs] eqn:Er;
    [reflexivity |].
  assert (Hx : In x (accepted_results results)) by (rewrite Er; now left).
  apply accepted_results_In in Hx. destruct Hx as (r & Hr & Hne & _).
  elim Hne. now apply H.
Qed.

(** C7, as the code has it: for [headers] a value with a length (the
    header-value list),
    [verify_headers] returns [False], raising nothing, when the list is
    empty, or when the method is not a string or is the empty string,
    whatever the other arguments are; and, for [accepted] an iterable,
    when none of its elements is a non-empty string or when the domain
    is not a string. *)
Theorem verify_headers_no_match headers n method accepted domain :
  py_len headers = Ok n ->
  n = 0 \/ is_str method = false \/ method = VStr []
  \/ (exists results,
         py_iter accepted = Ok results
         /\ ((forall r, In (VStr r) results -> r = [])
             \/ is_str domain = false)) ->
  verify_headers headers method accepted domain = Ok false.
Proof.
  intros Hn Hcase. unfold verify_headers. rewrite Hn. cbn [bind].
  destruct n as [|n]; [reflexivity |].
  change (S n <=? 0) with false. cbv iota.
  destruct method as [| z | m | l | l]; try reflexivity.
  destruct m as [|c m]; [reflexivity |].
  change (length (c :: m) <=? 0) with false. cbv iota.
  destruct Hcase as [H | [H | [H | (results & Ha & H)]]];
    [discriminate | discriminate | discriminate |].
  rewrite Ha. cbn [bind].
  destruct (length (accepted_results results) <=? 0) eqn:E; [reflexivity |].
  destruct H as [H | H].
  - rewrite (accepted_results_nil _ H) in E. discriminate.
  - destruct domain; try reflexivity. discriminate.
Qed.

Lemma lower_nil : lower [] = [].
Proof. reflexivity. Qed.

Lemma endswith_nil s : endswith s [] = true.
Proof.
  unfold endswith. simpl. rewrite Nat.sub_0_r, skipn_all. reflexivity.
Qed.

Lemma header_accepted_skip method accepted_set d header :
  endswith (authserv_id_of header) d = false ->
  header_accepted method accepted_set d (VStr header) = false.
Proof. intros H. simpl. now rewrite H. Qed.

Lemma existsb_pair_accepted_nil method items :
  existsb (pair_accepted method []) items = false.
Proof.
  induction items as [|kv items IH]; [reflexivity |].
  cbn [existsb]. rewrite IH. unfold pair_accepted. cbn [str_in existsb].
  now rewrite andb_false_r.
Qed.

Lemma verify_headers_one header method accepted results domain :
  py_iter accepted = Ok results -> method <> [] ->
  verify_headers (VList [VStr header]) (VStr method) accepted (VStr domain)
  = Ok (endswith (authserv_id_of header) (lower domain)
        && existsb (pair_accepted (lower method) (accepted_results results))
                   (snd (parse_header header))).
Proof.
  intros Ha Hm.
  rewrite (verify_headers_closed (VList [VStr header]) _ (VStr method) _ _
             (VStr domain) eq_refl Ha).
  cbn [length Nat.leb existsb header_accepted].
  destruct method as [|c method]; [now elim Hm |].
  change (length (c :: method) <=? 0) with false. cbv iota.
  rewrite orb_false_r.
  destruct (accepted_results results) as [|r rs]; [| reflexivity].
  cbn [length Nat.leb]. now rewrite existsb_pair_accepted_nil, andb_false_r.
Qed.

(** C6: the domain test is a suffix test on the comment-stripped,
    lowercased authserv-id against the lowercased domain.  A header
    value that fails it is passed over; one that passes it is
    considered, so that its pairs decide the answer; the empty domain
    passes for every authserv-id; and ["mx.google.com"] passes for the
    authserv-ids ["mx.google.com"] and ["gmr-mx.google.com"], whatever
    the case of the letters, but not for an authserv-id that does not
    end with it. *)
Theorem authserv_domain_suffix :
  (forall before header after method accepted results domain,
      py_iter accepted = Ok results ->
      endswith (authserv_id_of header) (lower domain) = false ->
      verify_headers (VList (before ++ VStr header :: after)) method accepted
                     (VStr domain)
      = verify_headers (VList (before ++ after)) method accepted (VStr domain))
  /\ (forall header method accepted results domain,
         py_iter accepted = Ok results -> method <> [] ->
         endswith (authserv_id_of header) (lower domain) = true ->
         verify_headers (VList [VStr header]) (VStr method) accepted
                        (VStr domain)
         = Ok (existsb (pair_accepted (lower method)
                                      (accepted_results results))
                       (snd (parse_header header))))
  /\ (forall header method accepted results,
         py_iter accepted = Ok results -> method <> [] ->
         verify_headers (VList [VStr header]) (VStr method) accepted (VStr [])
         = Ok (existsb (pair_accepted (lower method)
                                      (accepted_results results))
                       (snd (parse_header header))))
  /\ (forall authserv_id, endswith authserv_id (lower []) = true)
  /\ (forall header,
         authserv_id_of header = py "mx.google.com"
         \/ authserv_id_of header = py "gmr-mx.google.com" ->
         endswith (authserv_id_of header) (lower (py "mx.google.com")) = true)
  /\ verify_headers (VList [VStr (py "mx.google.com; spf=pass")])
                    (VStr (py "spf")) _DEFAULT_ACCEPT
                    (VStr (py "mx.google.com")) = Ok true
  /\ verify_headers (VList [VStr (py "gmr-mx.google.com; spf=pass")])
                    (VStr (py "spf")) _DEFAULT_ACCEPT
                    (VStr (py "mx.google.com")) = Ok true
  /\ verify_headers (VList [VStr (py "GMR-MX.Google.com (relay); spf=pass")])
                    (VStr (py "spf")) _DEFAULT_ACCEPT
                    (VStr (py "MX.GOOGLE.COM")) = Ok true
  /\ verify_headers (VList [VStr (py "mail.example.org; spf=pass")])
                    (VStr (py "spf")) _DEFAULT_ACCEPT
                    (VStr (py "mx.google.com")) = Ok false
  /\ verify_headers (VList [VStr (py "mail.example.org; spf=pass")])
                    (VStr (py "spf")) _DEFAULT_ACCEPT (VStr []) = Ok true
  /\ endswith (authserv_id_of (py "mx.google.com; spf=pass"))
              (lower (py "mx.google.com")) = true
  /\ endswith (authserv_id_of (py "gmr-mx.google.com; spf=pass"))
              (lower (py "mx.google.com")) = true
  /\ endswith (authserv_id_of (py "GMR-MX.Google.com (relay); spf=pass"))
              (lower (py "MX.GOOGLE.COM")) = true.
Proof.
  split; [| split; [| split; [| split; [| split;
    [| repeat split; vm_compute; reflexivity]]]]].
  - intros before header after method accepted results domain Ha Hd.
    rewrite (verify_headers_closed (VList (before ++ VStr header :: after))
               _ method _ _ (VStr domain) eq_refl Ha).
    rewrite (verify_headers_closed (VList (before ++ after))
               _ method _ _ (VStr domain) eq_refl Ha).
    f_equal.
    destruct method as [| z | m | l | l];
      try (now destruct (length (before ++ after) <=? 0),
                        (length (before ++ VStr header :: after) <=? 0)).
    destruct (length m <=? 0);
      [now destruct (length (before ++ after) <=? 0),
                    (length (before ++ VStr header :: after) <=? 0) |].
    destruct (length (accepted_results results) <=? 0);
      [now destruct (length (before ++ after) <=? 0),
                    (length (before ++ VStr header :: after) <=? 0) |].
    assert (He : existsb (header_accepted (lower m) (accepted_results results)
                            (lower domain)) (before ++ VStr header :: after)
                 = existsb (header_accepted (lower m) (accepted_results results)
                              (lower domain)) (before ++ after)).
    { rewrite !existsb_app. cbn [existsb].
      now rewrite (header_accepted_skip _ _ _ _ Hd). }
    rewrite He.
    replace (length (before ++ VStr header :: after) <=? 0) with false
      by (rewrite length_app; simpl; symmetry; apply Nat.leb_gt; lia).
    destruct (length (before ++ after) <=? 0) eqn:E; [| reflexivity].
    apply length_leb_0 in E. now rewrite E.
  - intros header method accepted results domain Ha Hm Hd.
    now rewrite (verify_headers_one _ _ _ _ _ Ha Hm), Hd.
  - intros header method accepted results Ha Hm.
    rewrite (verify_headers_one _ _ _ _ _ Ha Hm).
    now rewrite lower_nil, endswith_nil.
  - intros authserv_id. rewrite lower_nil. apply endswith_nil.
  - intros header [-> | ->]; vm_compute; reflexivity.
Qed.

Lemma verify_headers_satisfied headers hs method accepted results domain header :
  py_iter headers = Ok hs -> py_iter accepted = Ok results ->
  method <> [] -> In (VStr header) hs ->
  header_satisfies (lower method) (accepted_results results)
                   (lower domain) header ->
  verify_headers headers (VStr method) accepted (VStr domain) = Ok true.
Proof.
  intros Hh Ha Hm Hin Hsat.
  rewrite (verify_headers_closed _ _ (VStr method) _ _ (VStr domain) Hh Ha).
  destruct hs as [|h hs]; [destruct Hin |].
  change (length (h :: hs) <=? 0) with false. cbv iota.
  destruct method as [|c method]; [now elim Hm |].
  change (length (c :: method) <=? 0) with false. cbv iota.
  assert (He : existsb (header_accepted (lower (c :: method))
                          (accepted_results results) (lower domain)) (h :: hs)
               = true).
  { apply header_accepted_satisfies. exists header. now split. }
  rewrite He.
  destruct (accepted_results results) as [|r rs]; [| reflexivity].
  destruct Hsat as (_ & k & v & _ & _ & []).
Qed.

(** ** The mapping built by [parse_header] *)

Lemma dict_get_set_same d k v : dict_get (dict_set d k v) k = Some v.
Proof.
  induction d as [|[k' v'] d IH]; simpl.
  - now rewrite str_eqb_refl.
  - destruct (str_eqb k' k) eqn:E; simpl; rewrite E; [reflexivity | exact IH].
Qed.

Lemma dict_get_set_other d k k' v :
  k' <> k -> dict_get (dict_set d k' v) k = dict_get d k.
Proof.
  intros Hne. induction d as [|[k0 v0] d IH]; simpl.
  - destruct (str_eqb k' k) eqn:E; [| reflexivity].
    apply str_eqb_eq in E. contradiction.
  - destruct (str_eqb k0 k') eqn:E; simpl.
    + apply str_eqb_eq in E. subst k0.
      destruct (str_eqb k' k) eqn:E'; [| reflexivity].
      apply str_eqb_eq in E'. contradiction.
    + destruct (str_eqb k0 k); [reflexivity | exact IH].
Qed.

Lemma parse_params_keep name qs :
  (forall q, In q qs ->
             forall n' v', param_pair q = Some (n', v') -> n' <> name) ->
  forall d, dict_get (fold_left parse_param qs d) name = dict_get d name.
Proof.
  induction qs as [|q qs IH]; intros Hqs d; [reflexivity |].
  simpl. rewrite IH by (intros q' Hq'; apply Hqs; now right).
  unfold parse_param. destruct (param_pair q) as [[n' v'] |] eqn:E;
    [| reflexivity].
  apply dict_get_set_other. apply (Hqs q (or_introl eq_refl) n' v' E).
Qed.

Lemma parse_header_snd header :
  snd (parse_header header)
  = fold_left parse_param (tl (parseparam (semicolon :: header))) [].
Proof.
  unfold parse_header.
  destruct (parseparam (semicolon :: header)); reflexivity.
Qed.

(** X21: in a header value whose authserv-id matches, an entry of the
    mapping returned by [parse_header] that names the method with an
    accepted result makes [verify_headers] return [True] whatever the
    entries before and after it; and parts that repeat one key are a
    single entry of that mapping, holding the value of the last of them. *)
Theorem mapping_entry_decides header method accepted results domain :
  py_iter accepted = Ok results -> method <> [] ->
  endswith (authserv_id_of header) (lower domain) = true ->
  (forall before key val after,
      snd (parse_header header) = before ++ (key, val) :: after ->
      lower (remove_comments_str key) = lower method ->
      In (lower (remove_comments_str val)) (accepted_results results) ->
      verify_headers (VList [VStr header]) (VStr method) accepted
                     (VStr domain) = Ok true)
  /\ (forall parts p later name value,
         tl (parseparam (semicolon :: header)) = parts ++ p :: later ->
         param_pair p = Some (name, value) ->
         (forall q, In q later ->
                    forall n' v', param_pair q = Some (n', v') -> n' <> name) ->
         dict_get (snd (parse_header header)) name = Some value).
Proof.
  intros Ha Hm Hd. split.
  - intros before key val after E Hk Hv.
    apply (verify_headers_satisfied (VList [VStr header]) [VStr header]
             method accepted results domain header eq_refl Ha Hm);
      [now left |].
    split; [assumption |].
    exists key, val. rewrite E. split; [| split; assumption].
    apply in_or_app. right. now left.
  - intros parts p later name value E Hp Hlater.
    rewrite parse_header_snd, E, fold_left_app. cbn [fold_left].
    rewrite parse_params_keep by assumption.
    unfold parse_param. rewrite Hp. apply dict_get_set_same.
Qed.

(** C5, as the code has it: on the comment-heavy header value the method
    ["dkim"] verifies with the accepted result ["pass"]; ["policy"] is
    not the key of a part of that header value, so it does not verify,
    not even for the accepted result ["1362471462"]. *)
Theorem comment_heavy_header :
  let header := comment_heavy in
  verify_headers (VList [VStr header]) (VStr (py "dkim"))
                 (VList [VStr (py "pass")]) (VStr (py "mx.google.com"))
  = Ok true
  /\ verify_headers (VList [VStr header]) (VStr (py "policy"))
                    (VList [VStr (py "1362471462")]) (VStr (py "mx.google.com"))
     = Ok false
  /\ map fst (snd (parse_header header))
     = [py "dkim (because i like it) / 1 (one yay)"].
Proof.
  repeat split; vm_compute; reflexivity.
Qed.

(** ** The body forwarded by [deflect] *)

Lemma verify_headers_default hs method :
  exists b, verify_headers (VList hs) (VStr method) _DEFAULT_ACCEPT
                           (VStr (py "mx.google.com")) = Ok b.
Proof.
  rewrite (verify_headers_closed (VList hs) hs (VStr method) _DEFAULT_ACCEPT
             [VStr (py "pass")] (VStr (py "mx.google.com")) eq_refl eq_refl).
  eexists; reflexivity.
Qed.

Lemma bind_ok {A} (m : exc A) : (x <- m ;; Ok x) = m.
Proof. destruct m; reflexivity. Qed.

Lemma build_text_body_spec mail_message :
  build_text_body mail_message
  = (first_body <- get_first_body (text_plain_bodies mail_message) ;;
     Ok (spec_body
           (map spec_note
                (filter (spec_fails (get_mail_headers mail_message))
                        [py "spf"; py "dkim"]))
           first_body)).
Proof.
  unfold build_text_body, spec_fails, get_mail_headers.
  cbn [collect_failures filter].
  destruct (verify_headers_default (authentication_results mail_message)
              (py "spf")) as (b1 & E1).
  destruct (verify_headers_default (authentication_results mail_message)
              (py "dkim")) as (b2 & E2).
  generalize (get_first_body (text_plain_bodies mail_message)) as first_body.
  intros first_body.
  rewrite E1. cbn [bind]. destruct b1; cbn [negb collect_failures];
    rewrite E2; cbn [bind]; destruct b2; cbn [negb collect_failures bind];
    cbn [length Nat.ltb Nat.leb app map spec_body spec_join];
    try (symmetry; apply bind_ok);
    destruct first_body as [body | e]; cbn [bind]; try reflexivity; f_equal;
    cbn [concat app]; rewrite ?app_nil_r;
    unfold failure_line, spec_note, blank_line;
    rewrite <- ?app_assoc; reflexivity.
Qed.

Lemma decode_loop_ok part body :
  decode_loop part = Ok body <-> decodes_to part body.
Proof.
  split.
  - revert body. induction part as [s | next IH | e]; cbn; intros body H.
    + injection H as <-. constructor.
    + constructor. now apply IH.
    + discriminate.
  - induction 1; cbn; [reflexivity | assumption].
Qed.


Lemma get_first_body_ok bodies body :
  get_first_body bodies = Ok body <-> first_text bodies body.
Proof.
  destruct bodies as [|part rest]; cbn.
  - split; [intros H; now injection H | intros ->; reflexivity].
  - apply decode_loop_ok.
Qed.


Lemma first_text_unique bodies a b :
  first_text bodies a -> first_text bodies b -> a = b.
Proof.
  intros Ha Hb. apply get_first_body_ok in Ha, Hb. congruence.
Qed.

(** [deflect] with the tests and the decoding spelled out. *)
Lemma deflect_closed m :
  deflect m
  = if forwardable m
    then
      body <- get_first_body (text_plain_bodies m) ;;
      html <- get_first_body (text_html_bodies m) ;;
      match send_mail_to_admins (sent_message m body html) with
      | None => Ok (Some (sent_message m body html))
      | Some e => if is_over_quota e
                  then Ok (Some (sent_message m body html)) else Raise e
      end
    else Ok None.
Proof.
  unfold deflect, forwardable, origin_of, attribute.
  rewrite build_text_body_spec.
  destruct (nonempty_str match sender m with Some v => v | None => VStr [] end);
    [| reflexivity].
  destruct (nonempty_str match subject m with Some v => v | None => VStr [] end);
    [| reflexivity].
  cbn [negb orb andb].
  destruct (is_email_valid _); [| reflexivity]. cbn [negb].
  destruct (get_first_body (text_plain_bodies m)); reflexivity.
Qed.

(** What a message that left [deflect] for the transport is made of. *)
Lemma deflect_sent m sent :
  deflect m = Ok (Some sent) ->
  forwardable m = true
  /\ exists body html,
      first_text (text_plain_bodies m) body
      /\ first_text (text_html_bodies m) html
      /\ sent = sent_message m body html
      /\ send_passes sent = true.
Proof.
  rewrite deflect_closed. destruct (forwardable m); [| discriminate].
  destruct (get_first_body (text_plain_bodies m)) as [body | e] eqn:Eb;
    [| discriminate].
  destruct (get_first_body (text_html_bodies m)) as [html | e] eqn:Eh;
    [| discriminate].
  cbn [bind]. intros H. split; [reflexivity |]. exists body, html.
  apply get_first_body_ok in Eb, Eh.
  split; [assumption |]. split; [assumption |].
  unfold send_passes.
  destruct (send_mail_to_admins (sent_message m body html)) as [e |] eqn:Es.
  - destruct (is_over_quota e) eqn:Eq; [| discriminate].
    injection H as <-. rewrite Es. now split.
  - injection H as <-. rewrite Es. now split.
Qed.

(** C3: the body that [deflect] forwards.  A note "This email failed
    METHOD authentication." is collected for each of "spf" and "dkim", in
    that order, that does not verify.  Without notes the body is the
    first plain-text body part of the message; otherwise it is the notes
    joined by a blank line, a blank line, and that first plain-text body
    part.  With no plain-text body and both methods failing this is the
    two notes, each followed by a blank line. *)
Theorem forwarded_body mail_message :
  (forall sent, deflect mail_message = Ok (Some sent) ->
     exists body,
       first_text (text_plain_bodies mail_message) body
       /\ sent_body sent
          = spec_body
              (map spec_note
                   (filter (spec_fails (get_mail_headers mail_message))
                           [py "spf"; py "dkim"]))
              body)
  /\ (forall sent body, deflect mail_message = Ok (Some sent) ->
        first_text (text_plain_bodies mail_message) body ->
        sent_body sent
        = spec_body
            (map spec_note
                 (filter (spec_fails (get_mail_headers mail_message))
                         [py "spf"; py "dkim"]))
            body)
  /\ (forall sent, deflect mail_message = Ok (Some sent) ->
        text_plain_bodies mail_message = [] ->
        spec_fails (get_mail_headers mail_message) (py "spf") = true ->
        spec_fails (get_mail_headers mail_message) (py "dkim") = true ->
        sent_body sent
        = py "This email failed SPF authentication." ++ [newline; newline]
          ++ py "This email failed DKIM authentication." ++ [newline; newline]).
Proof.
  split; [| split].
  - intros sent H.
    destruct (deflect_sent _ _ H) as (_ & body & html & Hb & _ & -> & _).
    exists body. split; [assumption | reflexivity].
  - intros sent body H Hbody.
    destruct (deflect_sent _ _ H) as (_ & body' & html & Hb & _ & -> & _).
    now rewrite (first_text_unique _ _ _ Hbody Hb).
  - intros sent H Hnone Hspf Hdkim.
    destruct (deflect_sent _ _ H) as (_ & body & html & Hb & _ & -> & _).
    rewrite Hnone in Hb. cbn in Hb. subst body.
    cbn [sent_message sent_body filter]. rewrite Hspf, Hdkim.
    vm_compute. reflexivity.
Qed.

(** * Further properties *)

(** ** [remove_comments] *)

Lemma skip_leading_shift s :
  forall i n k, skip_leading s (k + i) n = k + skip_leading s i n.
Proof.
  induction s as [|c s IH]; intros i n k; simpl; [reflexivity |].
  rewrite !plus_n_Sm.
  destruct (char_eqb c lparen); [apply IH |].
  destruct (char_eqb c rparen); [apply IH |].
  destruct (negb (isspace c) && (n <=? 0)%Z); [lia | apply IH].
Qed.

Lemma skip_token_shift s :
  forall i k, skip_token s (k + i) = k + skip_token s i.
Proof.
  induction s as [|c s IH]; intros i k; simpl; [reflexivity |].
  destruct (negb (isspace c) && negb (char_eqb c lparen)); [| reflexivity].
  rewrite plus_n_Sm. apply IH.
Qed.

(** The test on the length at line 69 changes nothing. *)
Lemma remove_comments_str_loops content :
  remove_comments_str content
  = slice content (skip_leading content 0 0)
          (skip_token (skipn (skip_leading content 0 0) content)
                      (skip_leading content 0 0)).
Proof. destruct content; reflexivity. Qed.

Lemma skip_leading_app_only_comments pre :
  only_comments pre ->
  forall s i, skip_leading (pre ++ s) i 0 = skip_leading s (i + length pre) 0.
Proof.
  induction 1 as [| c p Hc Hp IH | a p Ha Hp IH]; intros s i.
  - simpl. f_equal. lia.
  - simpl. destruct (isspace_not_paren c Hc) as [-> ->].
    rewrite Hc. simpl. rewrite IH. f_equal. lia.
  - simpl. rewrite <- app_assoc. simpl.
    rewrite skip_leading_comment by (assumption || lia).
    simpl. rewrite IH, length_app. simpl. f_equal. lia.
Qed.

Lemma slice_app_shift (pre s : str) a b :
  slice (pre ++ s) (length pre + a) (length pre + b) = slice s a b.
Proof.
  unfold slice. rewrite skipn_app.
  rewrite skipn_all2 by lia. simpl.
  replace (length pre + a - length pre) with a by lia.
  f_equal. lia.
Qed.

Lemma skipn_app_shift (pre s : str) a :
  skipn (length pre + a) (pre ++ s) = skipn a s.
Proof.
  rewrite skipn_app. rewrite skipn_all2 by lia. simpl.
  f_equal. lia.
Qed.

(** X1: whitespace and balanced comments in front of a text do not
    change what [remove_comments] returns for it. *)
Theorem remove_comments_leading pre s :
  only_comments pre ->
  remove_comments_str (pre ++ s) = remove_comments_str s.
Proof.
  intros Hpre. rewrite !remove_comments_str_loops.
  rewrite (skip_leading_app_only_comments _ Hpre). simpl.
  rewrite <- (Nat.add_0_r (length pre)).
  rewrite skip_leading_shift.
  rewrite skipn_app_shift, skip_token_shift.
  apply slice_app_shift.
Qed.

Lemma skip_token_app tok rest :
  forallb token_char tok = true ->
  match rest with [] => True | r :: _ => token_char r = false end ->
  forall i, skip_token (tok ++ rest) i = i + length tok.
Proof.
  intros Ht Hr. induction tok as [|c tok IH]; intros i.
  - simpl. destruct rest as [|r rest]; simpl; [lia |].
    fold (token_char r). rewrite Hr. lia.
  - simpl in Ht. apply andb_true_iff in Ht. destruct Ht as [Hc Ht].
    simpl. fold (token_char c). rewrite Hc, (IH Ht). lia.
Qed.

(** X2: a token wrapped in comments is returned bare: after whitespace
    and balanced comments, a run of content characters that begins with
    a character other than a parenthesis, followed by nothing, by
    whitespace or by ['('], is the result. *)
Theorem remove_comments_decorated pre c tok rest :
  only_comments pre ->
  start_char c = true -> forallb token_char tok = true ->
  match rest with [] => True | r :: _ => token_char r = false end ->
  remove_comments_str (pre ++ (c :: tok) ++ rest) = c :: tok.
Proof.
  intros Hpre Hc Ht Hr. rewrite remove_comments_str_loops.
  rewrite (skip_leading_app_only_comments _ Hpre). simpl length at 1.
  assert (Hs : skip_leading ((c :: tok) ++ rest) (0 + length pre) 0
               = length pre).
  { unfold start_char in Hc. rewrite !andb_true_iff, !negb_true_iff in Hc.
    destruct Hc as [[Hs Hl] Hp]. simpl. now rewrite Hl, Hp, Hs. }
  rewrite Hs.
  rewrite <- (Nat.add_0_r (length pre)) at 2.
  rewrite skipn_app_shift. change (skipn 0 ?l) with l.
  assert (Htok : forallb token_char (c :: tok) = true).
  { simpl. now rewrite (start_char_token _ Hc), Ht. }
  rewrite (skip_token_app (c :: tok) rest Htok Hr).
  apply slice_middle.
Qed.

Lemma ascii_lower_cases c :
  ascii_lower c = c
  \/ ((65 <= c <= 90)%N /\ ascii_lower c = (c + 32)%N).
Proof.
  unfold ascii_lower.
  destruct (65 <=? c)%N eqn:E1; [| now left].
  destruct (c <=? 90)%N eqn:E2; [| now left].
  right. apply N.leb_le in E1, E2. simpl. split; [lia | reflexivity].
Qed.

Ltac bool_cases :=
  repeat match goal with
         | |- context [(?a <=? ?b)%N] =>
             destruct (N.leb_spec a b); try (exfalso; lia)
         | |- context [(?a =? ?b)%N] =>
             destruct (N.eqb_spec a b); try (exfalso; lia)
         end; try reflexivity.

Lemma isspace_letter c : (65 <= c <= 122)%N -> isspace c = false.
Proof. intros H. unfold isspace. bool_cases. Qed.

Lemma ascii_lower_isspace c : isspace (ascii_lower c) = isspace c.
Proof.
  destruct (ascii_lower_cases c) as [-> | [H ->]]; [reflexivity |].
  rewrite !isspace_letter by lia. reflexivity.
Qed.

Lemma ascii_lower_char_eqb c p :
  (p < 65)%N -> char_eqb (ascii_lower c) p = char_eqb c p.
Proof.
  intros Hp. destruct (ascii_lower_cases c) as [-> | [H ->]]; [reflexivity |].
  unfold char_eqb.
  destruct (N.eqb_spec (c + 32) p), (N.eqb_spec c p);
    try reflexivity; exfalso; lia.
Qed.

Lemma skip_leading_ascii_lower s :
  forall i n, skip_leading (map ascii_lower s) i n = skip_leading s i n.
Proof.
  induction s as [|c s IH]; intros i n; simpl; [reflexivity |].
  rewrite ascii_lower_isspace.
  rewrite !ascii_lower_char_eqb by (unfold lparen, rparen; lia).
  now rewrite !IH.
Qed.

Lemma skip_token_ascii_lower s :
  forall i, skip_token (map ascii_lower s) i = skip_token s i.
Proof.
  induction s as [|c s IH]; intros i; simpl; [reflexivity |].
  rewrite ascii_lower_isspace.
  rewrite ascii_lower_char_eqb by (unfold lparen; lia).
  now rewrite IH.
Qed.

(** X3: comment stripping commutes with the lowercasing of ASCII
    letters. *)
Theorem remove_comments_ascii_lower content :
  remove_comments_str (map ascii_lower content)
  = map ascii_lower (remove_comments_str content).
Proof.
  rewrite !remove_comments_str_loops.
  rewrite skip_leading_ascii_lower.
  rewrite skipn_map, skip_token_ascii_lower.
  unfold slice. now rewrite skipn_map, firstn_map.
Qed.

(** ** [verify_headers] *)

(** The answer on a list of header values, as one boolean. *)
Lemma verify_headers_list headers hs method accepted results domain :
  py_iter headers = Ok hs -> py_iter accepted = Ok results ->
  verify_headers headers method accepted domain
  = Ok (match method, domain with
        | VStr m, VStr d =>
            negb (length m <=? 0)
            && negb (length (accepted_results results) <=? 0)
            && existsb (header_accepted (lower m) (accepted_results results)
                                        (lower d)) hs
        | _, _ => false
        end).
Proof.
  intros Hh Ha.
  rewrite (verify_headers_closed _ _ method _ _ domain Hh Ha). f_equal.
  destruct hs as [|h hs].
  - cbn [length Nat.leb existsb].
    destruct method; try reflexivity. destruct domain; try reflexivity.
    now rewrite andb_false_r.
  - change (length (h :: hs) <=? 0) with false. cbv iota.
    destruct method; try reflexivity.
    destruct (length s <=? 0); [now destruct domain |].
    destruct (length (accepted_results results) <=? 0);
      now destruct domain.
Qed.

Lemma py_len_ok_iter v n : py_len v = Ok n -> exists l, py_iter v = Ok l.
Proof.
  destruct v; simpl; intros H; try discriminate; eexists; reflexivity.
Qed.

(** X4: [verify_headers] raises, and then a [TypeError], exactly when
    [headers] has no length, or when [headers] is not empty, the method
    is a non-empty string and [accepted] cannot be iterated; in all other
    cases it returns a boolean. *)
Theorem verify_headers_raises headers method accepted domain :
  (verify_headers headers method accepted domain = Raise TypeError
   <-> py_len headers = Raise TypeError
       \/ (exists n, py_len headers = Ok (S n))
          /\ nonempty_str method = true
          /\ py_iter accepted = Raise TypeError)
  /\ (verify_headers headers method accepted domain = Raise TypeError
      \/ exists b, verify_headers headers method accepted domain = Ok b).
Proof.
  assert (Hlen_raise : forall e, py_len headers = Raise e -> e = TypeError).
  { destruct headers; cbn; intros e H; try discriminate;
      now injection H as <-. }
  assert (Hiter_raise : forall e, py_iter accepted = Raise e -> e = TypeError).
  { destruct accepted; cbn; intros e H; try discriminate;
      now injection H as <-. }
  unfold verify_headers.
  destruct (py_len headers) as [n | e] eqn:Hlen; cbn [bind].
  2: { rewrite (Hlen_raise e eq_refl).
       split; [split; [now left | reflexivity] | now left]. }
  destruct n as [|n].
  { cbn [Nat.leb]. split; [| right; now eexists].
    split; [discriminate |].
    intros [H | [[n H] _]]; discriminate. }
  change (S n <=? 0) with false. cbv iota.
  assert (Hno : forall b : bool,
             (Ok b = Raise TypeError
              <-> @Ok nat (S n) = Raise TypeError
                  \/ (exists n0, @Ok nat (S n) = Ok (S n0))
                     /\ false = true /\ py_iter accepted = Raise TypeError)
             /\ (Ok b = Raise TypeError \/ exists b', Ok b = Ok b')).
  { intros b. split; [| right; now eexists].
    split; [discriminate |]. intros [H | [_ [H _]]]; discriminate. }
  destruct method as [| z | m | l | l]; try apply Hno.
  destruct m as [|c m]; [apply Hno |].
  change (length (c :: m) <=? 0) with false. cbv iota.
  change (nonempty_str (VStr (c :: m))) with true.
  destruct (py_iter accepted) as [results | e] eqn:Ha; cbn [bind].
  2: { rewrite (Hiter_raise e eq_refl). split; [| now left].
       split; [| reflexivity]. intros _. right.
       split; [now exists n | split; reflexivity]. }
  assert (Hok : forall b : bool,
             (Ok b = Raise TypeError
              <-> @Ok nat (S n) = Raise TypeError
                  \/ (exists n0, @Ok nat (S n) = Ok (S n0))
                     /\ true = true
                     /\ @Ok (list value) results = Raise TypeError)
             /\ (Ok b = Raise TypeError \/ exists b', Ok b = Ok b')).
  { intros b. split; [| right; now eexists].
    split; [discriminate |]. intros [H | [_ [_ H]]]; discriminate. }
  destruct (length (accepted_results results) <=? 0); [apply Hok |].
  destruct domain as [| z | d | l | l]; try apply Hok.
  destruct (py_len_ok_iter _ _ Hlen) as (hs & Hh).
  rewrite Hh. cbn [bind]. rewrite verify_loop_closed. apply Hok.
Qed.

(** X5: on the concatenation of two lists of header values the answer
    is the disjunction of the answers on the two lists. *)
Theorem verify_headers_app before after method accepted results domain :
  py_iter accepted = Ok results ->
  exists x y,
    verify_headers (VList before) method accepted domain = Ok x
    /\ verify_headers (VList after) method accepted domain = Ok y
    /\ verify_headers (VList (before ++ after)) method accepted domain
       = Ok (x || y).
Proof.
  intros Ha.
  rewrite (verify_headers_list (VList before) before method _ _ domain
             eq_refl Ha).
  rewrite (verify_headers_list (VList after) after method _ _ domain
             eq_refl Ha).
  rewrite (verify_headers_list (VList (before ++ after)) _ method _ _ domain
             eq_refl Ha).
  do 2 eexists. split; [reflexivity |]. split; [reflexivity |]. f_equal.
  destruct method; try reflexivity. destruct domain; try reflexivity.
  rewrite existsb_app.
  destruct (negb (length s <=? 0)); [| reflexivity].
  destruct (negb (length (accepted_results results) <=? 0)); reflexivity.
Qed.

Lemma existsb_Permutation {A} (f : A -> bool) l l' :
  Permutation l l' -> existsb f l = existsb f l'.
Proof.
  induction 1 as [| x l l' _ IH | x y l | l l' l'' _ IH1 _ IH2]; simpl.
  - reflexivity.
  - now rewrite IH.
  - now rewrite !orb_assoc, (orb_comm (f y)).
  - now rewrite IH1.
Qed.

(** Two lists that are empty together and on which the loop agrees get
    the same answer, whatever the other arguments are. *)
Lemma verify_headers_same_loop hs hs' method accepted domain :
  (length hs <=? 0) = (length hs' <=? 0) ->
  (forall m a d, verify_loop m a d hs = verify_loop m a d hs') ->
  verify_headers (VList hs) method accepted domain
  = verify_headers (VList hs') method accepted domain.
Proof.
  intros Hlen Hloop. unfold verify_headers. cbn [py_len py_iter bind].
  rewrite Hlen. destruct (length hs' <=? 0); [reflexivity |].
  destruct method; try reflexivity.
  destruct (length s <=? 0); [reflexivity |].
  destruct (py_iter accepted); [| reflexivity]. cbn [bind].
  destruct (length (accepted_results l) <=? 0); [reflexivity |].
  destruct domain; try reflexivity. apply Hloop.
Qed.

(** X6: the order of the header values does not matter. *)
Theorem verify_headers_permutation hs hs' method accepted domain :
  Permutation hs hs' ->
  verify_headers (VList hs) method accepted domain
  = verify_headers (VList hs') method accepted domain.
Proof.
  intros Hp. apply verify_headers_same_loop.
  - now rewrite (Permutation_length Hp).
  - intros m a d. rewrite !verify_loop_closed. f_equal.
    now apply existsb_Permutation.
Qed.

Lemma existsb_header_accepted_filter m a d hs :
  existsb (header_accepted m a d) (filter is_str hs)
  = existsb (header_accepted m a d) hs.
Proof.
  induction hs as [|h hs IH]; [reflexivity |].
  destruct h; cbn [filter is_str existsb header_accepted orb]; try exact IH.
  now rewrite IH.
Qed.

(** X7: header values that are not strings are passed over: removing
    them from the list leaves the answer as it is. *)
Theorem verify_headers_skips_non_str hs method accepted results domain :
  py_iter accepted = Ok results ->
  verify_headers (VList hs) method accepted domain
  = verify_headers (VList (filter is_str hs)) method accepted domain.
Proof.
  intros Ha.
  rewrite (verify_headers_list (VList hs) hs method _ _ domain eq_refl Ha).
  rewrite (verify_headers_list (VList (filter is_str hs)) _ method _ _ domain
             eq_refl Ha).
  destruct method; try reflexivity. destruct domain; try reflexivity.
  now rewrite existsb_header_accepted_filter.
Qed.

(** X8: accepting more results never turns [True] into [False]. *)
Theorem verify_headers_accepted_monotone
        headers hs method results results' domain :
  py_iter headers = Ok hs ->
  (forall v, In v results -> In v results') ->
  verify_headers headers method (VList results) domain = Ok true ->
  verify_headers headers method (VList results') domain = Ok true.
Proof.
  intros Hh Hincl.
  rewrite (verify_headers_list headers hs method (VList results) results
             domain Hh eq_refl).
  rewrite (verify_headers_list headers hs method (VList results') results'
             domain Hh eq_refl).
  destruct method as [| z | m | l | l]; try discriminate.
  destruct domain as [| z | d | l | l]; try discriminate.
  intros H. injection H as H'. f_equal.
  rewrite !andb_true_iff in H'. destruct H' as [[Hm Hacc] He].
  apply header_accepted_satisfies in He.
  destruct He as (header & Hin & Hd & k & v & Hkv & Hk & Hv).
  assert (Hv' : In (lower (remove_comments_str v)) (accepted_results results')).
  { apply accepted_results_In in Hv. apply accepted_results_In.
    destruct Hv as (r & Hr & Hne & E). exists r. auto. }
  assert (He' : existsb (header_accepted (lower m) (accepted_results results')
                           (lower d)) hs = true).
  { apply header_accepted_satisfies.
    exists header. split; [assumption |]. split; [assumption |].
    exists k, v. auto. }
  rewrite Hm, He'.
  destruct (accepted_results results'); [destruct Hv' | reflexivity].
Qed.

Lemma is_ascii_lower s : is_ascii s = true -> is_ascii (map ascii_lower s) = true.
Proof.
  unfold is_ascii. rewrite !forallb_forall. intros H c Hc.
  apply in_map_iff in Hc. destruct Hc as (x & <- & Hx).
  specialize (H x Hx). apply N.ltb_lt in H. apply N.ltb_lt.
  destruct (ascii_lower_cases x) as [-> | [Hr ->]]; lia.
Qed.

Lemma ascii_lower_idem c : ascii_lower (ascii_lower c) = ascii_lower c.
Proof.
  destruct (ascii_lower_cases c) as [E | [Hr E]]; rewrite E; [exact E |].
  unfold ascii_lower.
  destruct (N.leb_spec 65 (c + 32)); [| reflexivity].
  destruct (N.leb_spec (c + 32) 90); [exfalso; lia | reflexivity].
Qed.

Lemma lower_ascii_lower s :
  is_ascii s = true -> lower (map ascii_lower s) = lower s.
Proof.
  intros H. unfold lower. rewrite (is_ascii_lower _ H), H, map_map.
  apply map_ext. intros c. apply ascii_lower_idem.
Qed.

Lemma accepted_results_ascii_lower accs :
  forallb is_ascii accs = true ->
  accepted_results (map VStr (map (map ascii_lower) accs))
  = accepted_results (map VStr accs).
Proof.
  induction accs as [|a accs IH]; [reflexivity |].
  cbn [forallb map accepted_results]. intros H.
  apply andb_true_iff in H. destruct H as [Ha Haccs].
  rewrite length_map, (lower_ascii_lower _ Ha), (IH Haccs). reflexivity.
Qed.

(** X9: the letter case of the method, of the accepted results and of
    the domain does not matter: for ASCII arguments the answer is the one
    for their lowercased forms. *)
Theorem verify_headers_ascii_case headers method accs domain :
  is_ascii method = true -> forallb is_ascii accs = true ->
  is_ascii domain = true ->
  verify_headers headers (VStr method) (VList (map VStr accs)) (VStr domain)
  = verify_headers headers (VStr (map ascii_lower method))
      (VList (map VStr (map (map ascii_lower) accs)))
      (VStr (map ascii_lower domain)).
Proof.
  intros Hm Ha Hd. unfold verify_headers. cbn [py_iter bind].
  rewrite length_map, (lower_ascii_lower _ Hm), (lower_ascii_lower _ Hd),
    (accepted_results_ascii_lower _ Ha).
  reflexivity.
Qed.

(** ** [parse_header] as [verify_headers] uses it *)

Lemma find_at_absent c s :
  ~ In c s -> forall i, find_at [c] s i = (-1)%Z.
Proof.
  induction s as [|x s IH]; intros Hc i; [reflexivity |].
  cbn [find_at is_prefix].
  destruct (char_eqb c x) eqn:E.
  - apply char_eqb_eq in E. subst x. elim Hc. now left.
  - cbn [andb]. apply IH. intros H. apply Hc. now right.
Qed.

Lemma parseparam_step_no_semicolon line :
  ~ In semicolon line -> parseparam_step line = (strip line, []).
Proof.
  intros H. unfold parseparam_step, find, find_from.
  change (length line <? 0) with false. cbv iota.
  change (skipn 0 line) with line.
  rewrite (find_at_absent _ _ H). cbn [parseparam_end Z.gtb Z.compare andb].
  cbn [Z.ltb Z.compare]. rewrite Nat2Z.id. unfold slice.
  change (skipn 0 line) with line.
  rewrite Nat.sub_0_r, firstn_all, skipn_all. reflexivity.
Qed.

Lemma parse_header_no_semicolon line :
  ~ In semicolon line -> parse_header line = (strip line, []).
Proof.
  intros H. unfold parse_header, parseparam.
  cbn [length parseparam_loop]. rewrite char_eqb_refl.
  rewrite (parseparam_step_no_semicolon _ H). reflexivity.
Qed.

Lemma existsb_header_accepted_no_pairs m a d hs :
  (forall h, In (VStr h) hs -> snd (parse_header h) = []) ->
  existsb (header_accepted m a d) hs = false.
Proof.
  induction hs as [|h hs IH]; intros H; [reflexivity |].
  cbn [existsb]. rewrite IH by (intros h' Hh'; apply H; now right).
  destruct h; try reflexivity. cbn [header_accepted].
  rewrite (H s (or_introl eq_refl)). cbn [existsb].
  now rewrite andb_false_r.
Qed.

(** X10: a header value without [';'] has no key=value part, so a list
    of such header values never verifies. *)
Theorem verify_headers_needs_semicolon hs method accepted results domain :
  py_iter accepted = Ok results ->
  (forall h, In (VStr h) hs -> ~ In semicolon h) ->
  verify_headers (VList hs) method accepted domain = Ok false.
Proof.
  intros Ha H.
  rewrite (verify_headers_list (VList hs) hs method _ _ domain eq_refl Ha).
  destruct method; try reflexivity. destruct domain; try reflexivity.
  rewrite existsb_header_accepted_no_pairs; [now rewrite andb_false_r |].
  intros h Hh. now rewrite (parse_header_no_semicolon _ (H h Hh)).
Qed.

Lemma parse_header_single c : snd (parse_header [c]) = [].
Proof.
  destruct (char_eqb c semicolon) eqn:E.
  - apply char_eqb_eq in E. subst c. vm_compute. reflexivity.
  - rewrite parse_header_no_semicolon; [reflexivity |].
    intros [H | []]. subst c. rewrite char_eqb_refl in E. discriminate.
Qed.

(** X11: a string given in place of the list of header values is read
    character by character and never verifies. *)
Theorem verify_headers_str_headers s method accepted results domain :
  py_iter accepted = Ok results ->
  verify_headers (VStr s) method accepted domain = Ok false.
Proof.
  intros Ha.
  rewrite (verify_headers_list (VStr s) _ method _ _ domain eq_refl Ha).
  destruct method; try reflexivity. destruct domain; try reflexivity.
  rewrite existsb_header_accepted_no_pairs; [now rewrite andb_false_r |].
  intros h Hh. apply in_map_iff in Hh. destruct Hh as (c & E & _).
  injection E as <-. apply parse_header_single.
Qed.

Lemma dict_set_keys_in d k v x :
  In x (map fst (dict_set d k v)) -> x = k \/ In x (map fst d).
Proof.
  drop_params.
  induction d as [|[k' v'] d IH]; simpl.
  - intros [<- | []]. now left.
  - destruct (str_eqb k' k); simpl; [tauto |].
    intros [<- | H]; [tauto |]. destruct (IH H); tauto.
Qed.

Lemma dict_set_nodup d k v :
  NoDup (map fst d) -> NoDup (map fst (dict_set d k v)).
Proof.
  induction d as [|[k' v'] d IH]; simpl; intros H.
  - constructor; [intros [] | constructor].
  - destruct (str_eqb k' k) eqn:E; simpl; [exact H |].
    inversion H as [| ? ? Hnot Hd]; subst. constructor; [| now apply IH].
    intros Hin. destruct (dict_set_keys_in _ _ _ _ Hin) as [-> | Hin'].
    + rewrite str_eqb_refl in E. discriminate.
    + contradiction.
Qed.

Lemma parse_params_nodup parts :
  forall d, NoDup (map fst d) ->
            NoDup (map fst (fold_left parse_param parts d)).
Proof.
  induction parts as [|p parts IH]; intros d H; [exact H |].
  cbn [fold_left]. apply IH. unfold parse_param.
  destruct (param_pair p) as [[name value] |]; [| exact H].
  now apply dict_set_nodup.
Qed.

(** X12: the mapping whose entries [verify_headers] examines holds every
    key once, however often the header value repeats it. *)
Theorem parse_header_keys_unique line :
  NoDup (map fst (snd (parse_header line))).
Proof.
  rewrite parse_header_snd. apply parse_params_nodup. constructor.
Qed.

(** ** [get_email_address_for_route] *)

Lemma is_prefix_app p s :
  is_prefix p s = true <-> exists t, s = p ++ t.
Proof.
  revert s. induction p as [|x p IH]; intros s; simpl.
  - split; [intros _; now exists s | reflexivity].
  - destruct s as [|y s].
    + split; [discriminate | intros (t & E); discriminate].
    + rewrite andb_true_iff, char_eqb_eq, IH. split.
      * intros [-> (t & ->)]. now exists t.
      * intros (t & E). injection E as -> ->. split; [reflexivity | now exists t].
Qed.

(** X13: [get_email_address_for_route] returns an address exactly for a
    URI that is the route prefix, a ['/'] and that address, so the fixed
    offset [10] cuts where the tested prefix ends; every other URI gives
    the [ValueError].  The support route yields the support address of
    the application. *)
Theorem get_email_address_for_route_prefix :
  (forall uri address,
      get_email_address_for_route uri = Address address
      <-> uri = _ROUTE_PREFIX ++ py "/" ++ address)
  /\ (forall uri,
         is_prefix (_ROUTE_PREFIX ++ py "/") uri = false
         <-> get_email_address_for_route uri
             = ValueError (py "Invalid mail handler route: " ++ uri))
  /\ (forall app_name,
         get_email_address_for_route
           (_ROUTE_PREFIX ++ py "/support" ++ _MAIL_DOMAIN app_name)
         = Address (py "support" ++ _MAIL_DOMAIN app_name)).
Proof.
  split; [| split].
  - intros uri address. unfold get_email_address_for_route. split.
    + destruct (is_prefix (_ROUTE_PREFIX ++ py "/") uri) eqn:E;
        cbn [negb]; [| discriminate].
      intros H. injection H as <-.
      apply is_prefix_app in E. destruct E as (t & ->). reflexivity.
    + intros ->. reflexivity.
  - intros uri. unfold get_email_address_for_route.
    destruct (is_prefix (_ROUTE_PREFIX ++ py "/") uri); cbn [negb];
      split; intros H; try reflexivity; discriminate.
  - intros app_name. reflexivity.
Qed.

(** ** [deflect] *)



(** X15: what [deflect] sends goes from the support address, keeps the
    subject, which is a non-empty string, replies to an address that
    passed the validity test, and carries an HTML body only when the
    message has a non-empty one. *)
Theorem deflect_sent_fields m sent :
  deflect m = Ok (Some sent) ->
  sent_sender sent = support_address
  /\ sent_subject sent = attribute (subject m)
  /\ nonempty_str (sent_subject sent) = true
  /\ sent_reply_to sent = origin_of m
  /\ is_email_valid (sent_reply_to sent) = true
  /\ sent_html sent <> Some []
  /\ (sent_html sent = None <-> first_text (text_html_bodies m) []).
Proof.
  intros H.
  destruct (deflect_sent _ _ H) as (F & body & html & _ & Hh & -> & _).
  cbn [sent_message sent_sender sent_subject sent_reply_to sent_html].
  unfold forwardable in F. rewrite !andb_true_iff in F.
  destruct F as [[_ Hs] Hv].
  repeat split; try assumption.
  - destruct html; cbn; discriminate.
  - intros Hnone. destruct html; [assumption | discriminate].
  - intros Hempty. rewrite (first_text_unique _ _ _ Hh Hempty). reflexivity.
Qed.

Lemma spec_body_cases notes body :
  (notes = [] /\ spec_body notes body = body)
  \/ (notes <> []
      /\ exists front, front <> [] /\ spec_body notes body = front ++ body).
Proof.
  destruct notes as [|n notes]; [now left | right].
  split; [discriminate |].
  exists (spec_join (n :: notes) ++ blank_line). split.
  - intros H. apply app_eq_nil in H. destruct H as [_ H]. discriminate.
  - cbn [spec_body]. now rewrite <- app_assoc.
Qed.

(** X16: the body sent ends with the first plain-text body part of the
    message, decoded, and it is that text unchanged exactly when both
    "spf" and "dkim" verify. *)
Theorem forwarded_body_original m sent body :
  deflect m = Ok (Some sent) ->
  first_text (text_plain_bodies m) body ->
  (exists front, sent_body sent = front ++ body)
  /\ (sent_body sent = body
      <-> spec_fails (get_mail_headers m) (py "spf") = false
          /\ spec_fails (get_mail_headers m) (py "dkim") = false).
Proof.
  intros H Hbody.
  destruct (deflect_sent _ _ H) as (_ & body' & html & Hb & _ & -> & _).
  rewrite (first_text_unique _ _ _ Hb Hbody). cbn [sent_message sent_body].
  set (notes := map spec_note
                    (filter (spec_fails (get_mail_headers m))
                            [py "spf"; py "dkim"])).
  assert (Hn : notes = [] <-> spec_fails (get_mail_headers m) (py "spf") = false
                              /\ spec_fails (get_mail_headers m) (py "dkim") = false).
  { unfold notes. cbn [filter].
    destruct (spec_fails (get_mail_headers m) (py "spf")),
             (spec_fails (get_mail_headers m) (py "dkim")); cbn;
      split; try discriminate; try tauto;
      intros [H1 H2]; discriminate. }
  destruct (spec_body_cases notes body) as [[E ->] | (Hne & front & Hf & ->)].
  - split; [now exists [] |]. split; [intros _; now apply Hn | reflexivity].
  - split; [now exists front |]. split.
    + intros E. apply (f_equal (@length char)) in E.
      rewrite length_app in E.
      destruct front; [now elim Hf | simpl in E; lia].
    + intros Hv. elim Hne. now apply Hn.
Qed.

(** X17: a message without Authentication-Results values is sent with
    both failure notes in front of its first plain-text body. *)
Theorem forwarded_body_without_results m sent :
  authentication_results m = [] ->
  deflect m = Ok (Some sent) ->
  (exists body, first_text (text_plain_bodies m) body)
  /\ (forall body,
         first_text (text_plain_bodies m) body ->
         sent_body sent
         = spf_note ++ blank_line ++ dkim_note ++ blank_line ++ body).
Proof.
  intros Hnone H.
  destruct (deflect_sent _ _ H) as (_ & body & html & Hb & _ & -> & _).
  split; [now exists body |].
  intros body' Hb'. rewrite (first_text_unique _ _ _ Hb' Hb).
  cbn [sent_message sent_body].
  unfold get_mail_headers. rewrite Hnone. reflexivity.
Qed.

Lemma spec_fails_skip h hs method :
  header_accepted (lower method) (accepted_results [VStr (py "pass")])
                  (lower (py "mx.google.com")) h = false ->
  spec_fails (VList (h :: hs)) method = spec_fails (VList hs) method.
Proof.
  intros H. unfold spec_fails.
  rewrite (verify_headers_list (VList (h :: hs)) (h :: hs) (VStr method)
             _DEFAULT_ACCEPT [VStr (py "pass")] (VStr (py "mx.google.com"))
             eq_refl eq_refl).
  rewrite (verify_headers_list (VList hs) hs (VStr method)
             _DEFAULT_ACCEPT [VStr (py "pass")] (VStr (py "mx.google.com"))
             eq_refl eq_refl).
  cbn [existsb]. now rewrite H.
Qed.

(** X18: an Authentication-Results value written by another service,
    one whose authserv-id does not end with "mx.google.com", or a value
    that is not a string, changes nothing in what [deflect] does. *)
Theorem deflect_ignores_other_services h m :
  match h with
  | VStr header =>
      endswith (authserv_id_of header) (lower (py "mx.google.com")) = false
  | _ => True
  end ->
  deflect (with_header h m) = deflect m.
Proof.
  intros H. rewrite !deflect_closed.
  change (forwardable (with_header h m)) with (forwardable m).
  destruct (forwardable m); [| reflexivity].
  cbn [with_header text_plain_bodies text_html_bodies].
  assert (Hh : forall method,
             header_accepted (lower method)
                             (accepted_results [VStr (py "pass")])
                             (lower (py "mx.google.com")) h = false).
  { intros method. destruct h; try reflexivity.
    now apply header_accepted_skip. }
  assert (Hs : forall body html,
             sent_message (with_header h m) body html
             = sent_message m body html).
  { intros body html. unfold sent_message, get_mail_headers.
    cbn [with_header authentication_results subject filter].
    change (origin_of (with_header h m)) with (origin_of m).
    rewrite !(spec_fails_skip _ _ _ (Hh _)). reflexivity. }
  destruct (get_first_body (text_plain_bodies m)) as [body | e];
    [| reflexivity].
  destruct (get_first_body (text_html_bodies m)) as [html | e];
    [| reflexivity].
  cbn [bind]. now rewrite Hs.
Qed.

(** ** [get_mail_headers] *)

Lemma get_all_values_app f h1 h2 name :
  get_all_values f (h1 ++ h2) name
  = get_all_values f h1 name ++ get_all_values f h2 name.
Proof.
  induction h1 as [|[k v] h1 IH]; [reflexivity |].
  cbn [app get_all_values]. rewrite IH.
  destruct (str_eqb (lower k) name); reflexivity.
Qed.

Lemma get_all_empty f hs name :
  get_all f hs name [] = get_all_values f hs (lower name).
Proof.
  unfold get_all. destruct (get_all_values f hs (lower name)); reflexivity.
Qed.

(** X19: [get_mail_headers] returns the values of a repeated header in
    the order of the message: the values for two lists of headers put
    together are those of the first followed by those of the second; an
    inbound message gives what its original message gives, and the case
    of an ASCII header name does not matter. *)
Theorem get_mail_headers_order f h1 h2 header_name :
  get_mail_headers_of (MessageObject f (h1 ++ h2)) header_name
  = get_mail_headers_of (MessageObject f h1) header_name
    ++ get_mail_headers_of (MessageObject f h2) header_name
  /\ get_mail_headers_of (InboundObject (MessageObject f h1)) header_name
     = get_mail_headers_of (MessageObject f h1) header_name
  /\ (forall name, is_ascii name = true ->
        get_mail_headers_of (MessageObject f h1) (VStr (map ascii_lower name))
        = get_mail_headers_of (MessageObject f h1) (VStr name)).
Proof.
  split; [| split; [reflexivity |]].
  - destruct header_name; try reflexivity.
    cbn [get_mail_headers_of]. rewrite !get_all_empty.
    apply get_all_values_app.
  - intros name Hn. cbn [get_mail_headers_of]. rewrite !get_all_empty.
    now rewrite (lower_ascii_lower _ Hn).
Qed.

(** ** The pairs a header value is written with *)

Lemma dict_set_fresh d k v :
  ~ In k (map fst d) -> dict_set d k v = d ++ [(k, v)].
Proof.
  drop_params.
  induction d as [|[k' v'] d IH]; cbn; intros H; [reflexivity |].
  destruct (str_eqb k' k) eqn:E.
  - apply str_eqb_eq in E. subst. elim H. now left.
  - f_equal. apply IH. intros Hin. apply H. now right.
Qed.

Lemma dict_set_in d k v x :
  In x (dict_set d k v) -> In x d \/ x = (k, v).
Proof.
  drop_params.
  induction d as [|[k' v'] d IH]; cbn.
  - intros [<- | []]. now right.
  - destruct (str_eqb k' k) eqn:E; cbn.
    + apply str_eqb_eq in E. subst k'.
      intros [<- | H]; [now right | left; now right].
    + intros [<- | H]; [left; now left |].
      destruct (IH H) as [H' | H']; [left; now right | now right].
Qed.

Lemma parse_params_in parts :
  forall d x, In x (fold_left parse_param parts d) ->
              In x d \/ In x (flat_map part_pairs parts).
Proof.
  induction parts as [|p parts IH]; intros d x H; [now left |].
  cbn [fold_left] in H. destruct (IH _ _ H) as [Hd | Hp].
  - unfold parse_param in Hd. cbn [flat_map]. unfold part_pairs at 1.
    destruct (param_pair p) as [[k v] |]; [| now left].
    destruct (dict_set_in _ _ _ _ Hd) as [H' | ->];
      [now left | right; now left].
  - right. cbn [flat_map]. apply in_or_app. now right.
Qed.

Lemma parse_params_distinct parts :
  forall d,
    NoDup (map fst d ++ map fst (flat_map part_pairs parts)) ->
    fold_left parse_param parts d = d ++ flat_map part_pairs parts.
Proof.
  induction parts as [|p parts IH]; intros d H.
  - cbn. now rewrite app_nil_r.
  - cbn [fold_left flat_map] in *. unfold parse_param.
    unfold part_pairs at 1. unfold part_pairs at 1 in H.
    destruct (param_pair p) as [[k v] |].
    + cbn [app map fst] in H.
      assert (Hk : ~ In k (map fst d)).
      { apply NoDup_remove_2 in H. intros Hin. apply H.
        apply in_or_app. now left. }
      rewrite (dict_set_fresh _ _ _ Hk).
      rewrite IH.
      * now rewrite <- app_assoc.
      * rewrite map_app. cbn [map fst]. now rewrite <- app_assoc.
    + cbn [app]. now apply IH.
Qed.

Lemma written_pairs_parts header :
  written_pairs header
  = flat_map part_pairs (tl (parseparam (semicolon :: header))).
Proof.
  unfold written_pairs.
  destruct (parseparam (semicolon :: header)); reflexivity.
Qed.

(** X22: [verify_headers] returns [True] only if some header value with
    a matching authserv-id is written with a key=value part whose key
    is the method and whose result is accepted; and when no header value
    repeats a key, it returns [True] exactly in that case. *)
Theorem verify_headers_written_pairs headers hs method accepted results domain :
  py_iter headers = Ok hs -> py_iter accepted = Ok results ->
  method <> [] ->
  (verify_headers headers (VStr method) accepted (VStr domain) = Ok true ->
   exists header key val,
     In (VStr header) hs
     /\ endswith (authserv_id_of header) (lower domain) = true
     /\ In (key, val) (written_pairs header)
     /\ lower (remove_comments_str key) = lower method
     /\ In (lower (remove_comments_str val)) (accepted_results results))
  /\ ((forall header, In (VStr header) hs ->
                      NoDup (map fst (written_pairs header))) ->
      (exists header key val,
          In (VStr header) hs
          /\ endswith (authserv_id_of header) (lower domain) = true
          /\ In (key, val) (written_pairs header)
          /\ lower (remove_comments_str key) = lower method
          /\ In (lower (remove_comments_str val)) (accepted_results results)) ->
      verify_headers headers (VStr method) accepted (VStr domain) = Ok true).
Proof.
  intros Hh Ha Hm. split.
  - rewrite (verify_headers_list _ _ (VStr method) _ _ (VStr domain) Hh Ha).
    intros H. injection H as H. rewrite !andb_true_iff in H.
    destruct H as [_ He]. apply header_accepted_satisfies in He.
    destruct He as (header & Hin & Hd & k & v & Hkv & Hk & Hv).
    exists header, k, v. repeat split; try assumption.
    rewrite parse_header_snd in Hkv. rewrite written_pairs_parts.
    destruct (parse_params_in _ _ _ Hkv) as [[] | H']. exact H'.
  - intros Hdistinct (header & k & v & Hin & Hd & Hkv & Hk & Hv).
    apply (verify_headers_satisfied headers hs method accepted results domain
             header Hh Ha Hm Hin).
    split; [assumption |]. exists k, v. repeat split; try assumption.
    rewrite parse_header_snd.
    specialize (Hdistinct header Hin). rewrite written_pairs_parts in *.
    rewrite parse_params_distinct by exact Hdistinct. exact Hkv.
Qed.

End Verifier.

(** * Instances on concrete input

    The statements above are applied to concrete messages, with the
    Unicode part of the case mappings instantiated by [unchanged]: the
    texts below are ASCII. *)

Lemma remove_comments_first_run_witness :
  forallb start_char (py "foo.example.net") = true
  /\ remove_comments_str (py "foo.example.net") = py "foo.example.net"
  /\ only_comments (py " (all (nested) comments) ")
  /\ remove_comments_str (py " (all (nested) comments) ") = [].
Proof.
  assert (Hc : only_comments (py " (all (nested) comments) ")).
  { apply (oc_space 32%N); [reflexivity |].
    apply (oc_comment (py "all (nested) comments") (py " ")).
    - repeat (apply ct_char; [reflexivity | reflexivity |]).
      apply (ct_nest (py "nested") (py " comments")).
      + repeat (apply ct_char; [reflexivity | reflexivity |]). apply ct_nil.
      + repeat (apply ct_char; [reflexivity | reflexivity |]). apply ct_nil.
    - apply (oc_space 32%N); [reflexivity | apply oc_nil]. }
  split; [reflexivity |]. split; [| split; [exact Hc |]].
  - apply (proj1 (proj2 (remove_comments_first_run (py "foo.example.net")))).
    reflexivity.
  - apply (proj2 (proj2 (remove_comments_first_run
                           (py " (all (nested) comments) ")))).
    exact Hc.
Defined.

Lemma remove_comments_type_error_witness :
  is_str (VInt 42) = false /\ remove_comments (VInt 42) = Raise TypeError.
Proof.
  split; [reflexivity |].
  apply (proj2 (proj1 (remove_comments_type_error (VInt 42)))).
  reflexivity.
Defined.

Lemma remove_comments_substring_witness :
  In rparen (remove_comments_str (py "(x) a)b (y)"))
  /\ isspace rparen = false /\ rparen <> lparen.
Proof.
  assert (H : In rparen (remove_comments_str (py "(x) a)b (y)"))).
  { right. left. reflexivity. }
  split; [exact H |].
  apply (proj2 (proj1 remove_comments_substring (py "(x) a)b (y)")) rparen H).
Defined.

Lemma verify_headers_iff_witness :
  let headers := [VStr failing_header; VStr passing_header] in
  py_iter (VList headers) = Ok headers
  /\ py_iter _DEFAULT_ACCEPT = Ok [VStr (py "pass")]
  /\ py "spf" <> []
  /\ verify_headers unchanged (VList headers) (VStr (py "spf"))
                    _DEFAULT_ACCEPT (VStr (py "mx.google.com")) = Ok true.
Proof.
  cbv zeta. split; [reflexivity |]. split; [reflexivity |].
  split; [discriminate |].
  apply (proj2 (proj1 (verify_headers_iff unchanged
                         (VList [VStr failing_header; VStr passing_header])
                         [VStr failing_header; VStr passing_header]
                         (py "spf") _DEFAULT_ACCEPT [VStr (py "pass")]
                         (py "mx.google.com") eq_refl eq_refl
                         ltac:(discriminate)))).
  exists passing_header.
  split; [right; left; reflexivity |].
  split; [vm_compute; reflexivity |].
  exists (py "spf"), (py "pass smtp.mailfrom=example.net").
  split; [left; reflexivity |].
  split; [vm_compute; reflexivity | left; vm_compute; reflexivity].
Defined.

Lemma verify_headers_no_match_witness :
  let headers := VList [VStr passing_header] in
  let accepted := [VNone; VStr []; VInt 7] in
  py_len headers = Ok 1
  /\ py_iter (VList accepted) = Ok accepted
  /\ (forall r, In (VStr r) accepted -> r = [])
  /\ verify_headers unchanged headers (VStr (py "spf")) (VList accepted)
                    (VStr (py "mx.google.com")) = Ok false.
Proof.
  cbv zeta.
  assert (H : forall r, In (VStr r) [VNone; VStr []; VInt 7] -> r = []).
  { intros r [E | [E | [E | []]]]; try discriminate.
    inversion E. reflexivity. }
  split; [reflexivity |]. split; [reflexivity |]. split; [exact H |].
  apply (verify_headers_no_match unchanged (VList [VStr passing_header]) 1
           (VStr (py "spf")) (VList [VNone; VStr []; VInt 7])
           (VStr (py "mx.google.com")) eq_refl).
  right. right. right. exists [VNone; VStr []; VInt 7].
  split; [reflexivity | left; exact H].
Defined.

Lemma authserv_domain_suffix_witness :
  py_iter _DEFAULT_ACCEPT = Ok [VStr (py "pass")]
  /\ py "spf" <> []
  /\ endswith (authserv_id_of unchanged (py "mail.example.org; spf=pass"))
              (lower unchanged (py "mx.google.com")) = false
  /\ verify_headers unchanged
       (VList ([] ++ VStr (py "mail.example.org; spf=pass") :: []))
       (VStr (py "spf")) _DEFAULT_ACCEPT (VStr (py "mx.google.com"))
     = Ok false
  /\ endswith (authserv_id_of unchanged (py "gmr-mx.google.com; spf=pass"))
              (lower unchanged (py "mx.google.com")) = true
  /\ verify_headers unchanged (VList [VStr (py "gmr-mx.google.com; spf=pass")])
                    (VStr (py "spf")) _DEFAULT_ACCEPT
                    (VStr (py "mx.google.com"))
     = Ok true.
Proof.
  split; [reflexivity |]. split; [discriminate |].
  split; [vm_compute; reflexivity |]. split.
  - etransitivity;
      [apply (proj1 (authserv_domain_suffix unchanged) []
                (py "mail.example.org; spf=pass") []
                (VStr (py "spf")) _DEFAULT_ACCEPT [VStr (py "pass")]
                (py "mx.google.com") eq_refl);
       vm_compute; reflexivity
      | reflexivity].
  - split; [vm_compute; reflexivity |].
    etransitivity;
      [apply (proj1 (proj2 (authserv_domain_suffix unchanged))
                (py "gmr-mx.google.com; spf=pass") (py "spf")
                _DEFAULT_ACCEPT [VStr (py "pass")] (py "mx.google.com")
                eq_refl ltac:(discriminate));
       vm_compute; reflexivity
      | vm_compute; reflexivity].
Defined.

Lemma mapping_entry_decides_witness :
  py_iter _DEFAULT_ACCEPT = Ok [VStr (py "pass")]
  /\ py "spf" <> []
  /\ endswith (authserv_id_of unchanged distinct_keys)
              (lower unchanged (py "mx.google.com")) = true
  /\ snd (parse_header unchanged distinct_keys)
     = [] ++ (py "spf (a)", py "pass") :: [(py "spf (b)", py "fail")]
  /\ verify_headers unchanged (VList [VStr distinct_keys]) (VStr (py "spf"))
                    _DEFAULT_ACCEPT (VStr (py "mx.google.com")) = Ok true.
Proof.
  split; [reflexivity |]. split; [discriminate |].
  split; [vm_compute; reflexivity |]. split; [vm_compute; reflexivity |].
  apply (proj1 (mapping_entry_decides unchanged distinct_keys
                  (py "spf") _DEFAULT_ACCEPT [VStr (py "pass")]
                  (py "mx.google.com") eq_refl ltac:(discriminate)
                  ltac:(vm_compute; reflexivity))
           [] (py "spf (a)") (py "pass") [(py "spf (b)", py "fail")]).
  - vm_compute. reflexivity.
  - vm_compute. reflexivity.
  - left. vm_compute. reflexivity.
Defined.

Lemma forwarded_body_witness :
  (exists sent,
      deflect unchanged unchanged always_valid support_sample delivers
              bare_message = Ok (Some sent)
      /\ first_text (text_plain_bodies bare_message) (py "Hello!  Goodbye!")
      /\ sent_body sent
         = py "This email failed SPF authentication." ++ [newline; newline]
           ++ py "This email failed DKIM authentication." ++ [newline; newline]
           ++ py "Hello!  Goodbye!")
  /\ (exists sent,
         deflect unchanged unchanged always_valid support_sample delivers
                 sample_message = Ok (Some sent)
         /\ text_plain_bodies sample_message = []
         /\ spec_fails unchanged (get_mail_headers sample_message) (py "spf")
            = true
         /\ spec_fails unchanged (get_mail_headers sample_message) (py "dkim")
            = true
         /\ sent_body sent
            = py "This email failed SPF authentication." ++ [newline; newline]
              ++ py "This email failed DKIM authentication."
              ++ [newline; newline]).
Proof.
  assert (Hfirst : first_text (text_plain_bodies bare_message)
                              (py "Hello!  Goodbye!")).
  { apply decodes_next. apply decodes_text. }
  split.
  - eexists. split; [vm_compute; reflexivity |]. split; [exact Hfirst |].
    etransitivity;
      [apply (proj1 (proj2 (forwarded_body unchanged unchanged always_valid
                              support_sample delivers bare_message))
                _ (py "Hello!  Goodbye!"));
       [vm_compute; reflexivity | exact Hfirst]
      | vm_compute; reflexivity].
  - eexists. split; [vm_compute; reflexivity |].
    split; [reflexivity |]. split; [vm_compute; reflexivity |].
    split; [vm_compute; reflexivity |].
    apply (proj2 (proj2 (forwarded_body unchanged unchanged always_valid
                           support_sample delivers sample_message)));
      vm_compute; reflexivity.
Defined.

(** Instances of the further properties. *)

Lemma remove_comments_leading_witness :
  only_comments (py "(c) ")
  /\ remove_comments_str (py "(c) " ++ py "dkim (x)")
     = remove_comments_str (py "dkim (x)").
Proof.
  assert (H : only_comments (py "(c) ")).
  { apply (oc_comment (py "c") (py " ")).
    - apply ct_char; [reflexivity | reflexivity | apply ct_nil].
    - apply (oc_space 32%N); [reflexivity | apply oc_nil]. }
  split; [exact H |].
  apply (remove_comments_leading (py "(c) ") (py "dkim (x)") H).
Defined.

Lemma remove_comments_decorated_witness :
  only_comments (py " (wait for it) ")
  /\ start_char 112%N = true
  /\ forallb token_char (py "ass") = true
  /\ token_char 32%N = false
  /\ remove_comments_str (py " (wait for it) " ++ (112%N :: py "ass") ++ py " policy")
     = 112%N :: py "ass".
Proof.
  assert (H : only_comments (py " (wait for it) ")).
  { apply (oc_space 32%N); [reflexivity |].
    apply (oc_comment (py "wait for it") (py " ")).
    - repeat (apply ct_char; [reflexivity | reflexivity |]). apply ct_nil.
    - apply (oc_space 32%N); [reflexivity | apply oc_nil]. }
  split; [exact H |]. split; [reflexivity |]. split; [reflexivity |].
  split; [reflexivity |].
  apply (remove_comments_decorated (py " (wait for it) ") 112%N (py "ass")
           (py " policy") H eq_refl eq_refl eq_refl).
Defined.

Lemma verify_headers_raises_witness :
  py_len (VList [VStr passing_header]) = Ok 1
  /\ nonempty_str (VStr (py "spf")) = true
  /\ py_iter (VInt 3) = Raise TypeError
  /\ verify_headers unchanged (VList [VStr passing_header]) (VStr (py "spf"))
                    (VInt 3) (VStr (py "mx.google.com")) = Raise TypeError.
Proof.
  split; [reflexivity |]. split; [reflexivity |]. split; [reflexivity |].
  apply (proj2 (proj1 (verify_headers_raises unchanged
                         (VList [VStr passing_header]) (VStr (py "spf"))
                         (VInt 3) (VStr (py "mx.google.com"))))).
  right. split; [exists 0; reflexivity | split; reflexivity].
Defined.

Lemma verify_headers_app_witness :
  py_iter _DEFAULT_ACCEPT = Ok [VStr (py "pass")]
  /\ exists x y,
      verify_headers unchanged (VList [VStr failing_header]) (VStr (py "spf"))
                     _DEFAULT_ACCEPT (VStr (py "mx.google.com")) = Ok x
      /\ verify_headers unchanged (VList [VStr passing_header])
                        (VStr (py "spf")) _DEFAULT_ACCEPT
                        (VStr (py "mx.google.com")) = Ok y
      /\ verify_headers unchanged
           (VList ([VStr failing_header] ++ [VStr passing_header]))
           (VStr (py "spf")) _DEFAULT_ACCEPT (VStr (py "mx.google.com"))
         = Ok (x || y).
Proof.
  split; [reflexivity |].
  apply (verify_headers_app unchanged [VStr failing_header]
           [VStr passing_header] (VStr (py "spf")) _DEFAULT_ACCEPT
           [VStr (py "pass")] (VStr (py "mx.google.com")) eq_refl).
Defined.

Lemma verify_headers_permutation_witness :
  Permutation [VStr failing_header; VStr passing_header]
              [VStr passing_header; VStr failing_header]
  /\ verify_headers unchanged (VList [VStr failing_header; VStr passing_header])
                    (VStr (py "spf")) _DEFAULT_ACCEPT (VStr (py "mx.google.com"))
     = verify_headers unchanged
         (VList [VStr passing_header; VStr failing_header])
         (VStr (py "spf")) _DEFAULT_ACCEPT (VStr (py "mx.google.com")).
Proof.
  split; [apply perm_swap |].
  apply (verify_headers_permutation unchanged _ _ (VStr (py "spf"))
           _DEFAULT_ACCEPT (VStr (py "mx.google.com"))
           (perm_swap (VStr passing_header) (VStr failing_header) [])).
Defined.

Lemma verify_headers_skips_non_str_witness :
  py_iter _DEFAULT_ACCEPT = Ok [VStr (py "pass")]
  /\ verify_headers unchanged (VList [VNone; VStr passing_header; VInt 1])
                    (VStr (py "spf")) _DEFAULT_ACCEPT (VStr (py "mx.google.com"))
     = verify_headers unchanged
         (VList (filter is_str [VNone; VStr passing_header; VInt 1]))
         (VStr (py "spf")) _DEFAULT_ACCEPT (VStr (py "mx.google.com")).
Proof.
  split; [reflexivity |].
  apply (verify_headers_skips_non_str unchanged
           [VNone; VStr passing_header; VInt 1] (VStr (py "spf"))
           _DEFAULT_ACCEPT [VStr (py "pass")] (VStr (py "mx.google.com"))
           eq_refl).
Defined.

Lemma verify_headers_accepted_monotone_witness :
  py_iter (VList [VStr passing_header]) = Ok [VStr passing_header]
  /\ (forall v, In v [VStr (py "pass")]
                -> In v [VStr (py "neutral"); VStr (py "pass")])
  /\ verify_headers unchanged (VList [VStr passing_header]) (VStr (py "spf"))
                    (VList [VStr (py "pass")]) (VStr (py "mx.google.com"))
     = Ok true
  /\ verify_headers unchanged (VList [VStr passing_header]) (VStr (py "spf"))
                    (VList [VStr (py "neutral"); VStr (py "pass")])
                    (VStr (py "mx.google.com"))
     = Ok true.
Proof.
  assert (H : forall v, In v [VStr (py "pass")]
                        -> In v [VStr (py "neutral"); VStr (py "pass")]).
  { intros v Hv. right. exact Hv. }
  split; [reflexivity |]. split; [exact H |].
  split; [vm_compute; reflexivity |].
  apply (verify_headers_accepted_monotone unchanged
           (VList [VStr passing_header]) [VStr passing_header]
           (VStr (py "spf")) [VStr (py "pass")]
           [VStr (py "neutral"); VStr (py "pass")] (VStr (py "mx.google.com"))
           eq_refl H).
  vm_compute. reflexivity.
Defined.

Lemma verify_headers_ascii_case_witness :
  is_ascii (py "SPF") = true
  /\ forallb is_ascii [py "Pass"] = true
  /\ is_ascii (py "MX.Google.com") = true
  /\ verify_headers unchanged (VList [VStr passing_header]) (VStr (py "SPF"))
                    (VList (map VStr [py "Pass"])) (VStr (py "MX.Google.com"))
     = verify_headers unchanged (VList [VStr passing_header])
         (VStr (map ascii_lower (py "SPF")))
         (VList (map VStr (map (map ascii_lower) [py "Pass"])))
         (VStr (map ascii_lower (py "MX.Google.com"))).
Proof.
  split; [reflexivity |]. split; [reflexivity |]. split; [reflexivity |].
  apply (verify_headers_ascii_case unchanged (VList [VStr passing_header])
           (py "SPF") [py "Pass"] (py "MX.Google.com")
           eq_refl eq_refl eq_refl).
Defined.

Lemma verify_headers_needs_semicolon_witness :
  py_iter _DEFAULT_ACCEPT = Ok [VStr (py "pass")]
  /\ (forall h, In (VStr h) [VStr (py "mx.google.com spf=pass")]
                -> ~ In semicolon h)
  /\ verify_headers unchanged (VList [VStr (py "mx.google.com spf=pass")])
                    (VStr (py "spf")) _DEFAULT_ACCEPT (VStr (py "mx.google.com"))
     = Ok false.
Proof.
  assert (H : forall h, In (VStr h) [VStr (py "mx.google.com spf=pass")]
                        -> ~ In semicolon h).
  { intros h [E | []]. injection E as <-.
    intros Hin. vm_compute in Hin.
    repeat (destruct Hin as [Hin | Hin]; [discriminate Hin |]).
    exact Hin. }
  split; [reflexivity |]. split; [exact H |].
  apply (verify_headers_needs_semicolon unchanged
           [VStr (py "mx.google.com spf=pass")] (VStr (py "spf"))
           _DEFAULT_ACCEPT [VStr (py "pass")] (VStr (py "mx.google.com"))
           eq_refl H).
Defined.

Lemma verify_headers_str_headers_witness :
  py_iter _DEFAULT_ACCEPT = Ok [VStr (py "pass")]
  /\ verify_headers unchanged (VStr passing_header) (VStr (py "spf"))
                    _DEFAULT_ACCEPT (VStr (py "mx.google.com")) = Ok false.
Proof.
  split; [reflexivity |].
  apply (verify_headers_str_headers unchanged passing_header (VStr (py "spf"))
           _DEFAULT_ACCEPT [VStr (py "pass")] (VStr (py "mx.google.com"))
           eq_refl).
Defined.

Lemma get_email_address_for_route_prefix_witness :
  py "/_ah/mail/support@testbed-test.appspotmail.com"
  = _ROUTE_PREFIX ++ py "/" ++ support_sample
  /\ get_email_address_for_route
       (py "/_ah/mail/support@testbed-test.appspotmail.com")
     = Address support_sample.
Proof.
  split; [reflexivity |].
  apply (proj2 (proj1 (get_email_address_for_route_prefix unchanged)
                  (py "/_ah/mail/support@testbed-test.appspotmail.com")
                  support_sample)).
  reflexivity.
Defined.


Lemma deflect_sent_fields_witness :
  exists sent,
    deflect unchanged unchanged always_valid support_sample over_quota
            bare_message
    = Ok (Some sent)
    /\ sent_sender sent = support_sample
    /\ sent_subject sent = VStr (py "here's a sample")
    /\ sent_reply_to sent = VStr (py "reply@example.net")
    /\ sent_html sent <> Some [].
Proof.
  eexists. split; [vm_compute; reflexivity |].
  destruct (deflect_sent_fields unchanged unchanged always_valid
              support_sample over_quota bare_message _ eq_refl)
    as (H1 & H2 & _ & H4 & _ & H6 & _).
  split; [exact H1 |]. split; [exact H2 |]. split; [exact H4 | exact H6].
Defined.

Lemma forwarded_body_original_witness :
  exists sent,
    deflect unchanged unchanged always_valid support_sample delivers
            verified_message
    = Ok (Some sent)
    /\ first_text (text_plain_bodies verified_message) (py "Hello!  Goodbye!")
    /\ spec_fails unchanged (get_mail_headers verified_message) (py "spf")
       = false
    /\ spec_fails unchanged (get_mail_headers verified_message) (py "dkim")
       = false
    /\ sent_body sent = py "Hello!  Goodbye!".
Proof.
  assert (Hfirst : first_text (text_plain_bodies verified_message)
                              (py "Hello!  Goodbye!")).
  { apply decodes_next. apply decodes_text. }
  eexists. split; [vm_compute; reflexivity |]. split; [exact Hfirst |].
  split; [vm_compute; reflexivity |]. split; [vm_compute; reflexivity |].
  apply (proj2 (proj2 (forwarded_body_original unchanged unchanged
                         always_valid support_sample delivers
                         verified_message _ (py "Hello!  Goodbye!")
                         eq_refl Hfirst))).
  split; vm_compute; reflexivity.
Defined.

Lemma forwarded_body_without_results_witness :
  exists sent,
    authentication_results bare_message = []
    /\ deflect unchanged unchanged always_valid support_sample delivers
               bare_message
       = Ok (Some sent)
    /\ first_text (text_plain_bodies bare_message) (py "Hello!  Goodbye!")
    /\ sent_body sent
       = spf_note ++ blank_line ++ dkim_note ++ blank_line
         ++ py "Hello!  Goodbye!".
Proof.
  assert (Hfirst : first_text (text_plain_bodies bare_message)
                              (py "Hello!  Goodbye!")).
  { apply decodes_next. apply decodes_text. }
  eexists. split; [reflexivity |]. split; [vm_compute; reflexivity |].
  split; [exact Hfirst |].
  apply (proj2 (forwarded_body_without_results unchanged unchanged
                  always_valid support_sample delivers bare_message _
                  eq_refl eq_refl)
           (py "Hello!  Goodbye!") Hfirst).
Defined.

Lemma deflect_ignores_other_services_witness :
  endswith (authserv_id_of unchanged failing_header)
           (lower unchanged (py "mx.google.com")) = false
  /\ deflect unchanged unchanged always_valid support_sample delivers
             (with_header (VStr failing_header) bare_message)
     = deflect unchanged unchanged always_valid support_sample delivers
               bare_message.
Proof.
  split; [vm_compute; reflexivity |].
  apply (deflect_ignores_other_services unchanged unchanged always_valid
           support_sample delivers (VStr failing_header) bare_message).
  vm_compute. reflexivity.
Defined.

Lemma get_mail_headers_order_witness :
  is_ascii (py "Authentication-Results") = true
  /\ get_mail_headers_of unchanged (MessageObject keep_value sample_headers)
       (VStr (map ascii_lower (py "Authentication-Results")))
     = get_mail_headers_of unchanged (MessageObject keep_value sample_headers)
         (VStr (py "Authentication-Results"))
  /\ get_mail_headers_of unchanged (MessageObject keep_value sample_headers)
       (VStr (py "Authentication-Results"))
     = [VStr passing_header; VStr failing_header].
Proof.
  split; [reflexivity |]. split; [| vm_compute; reflexivity].
  apply (proj2 (proj2 (get_mail_headers_order unchanged keep_value
                         sample_headers [] (VStr (py "From"))))
           (py "Authentication-Results") eq_refl).
Defined.

Lemma verify_headers_written_pairs_witness :
  let hs := [VStr failing_header; VStr passing_header] in
  py_iter (VList hs) = Ok hs
  /\ py_iter _DEFAULT_ACCEPT = Ok [VStr (py "pass")]
  /\ py "spf" <> []
  /\ (forall header, In (VStr header) hs ->
                     NoDup (map fst (written_pairs unchanged header)))
  /\ In (py "spf", py "pass smtp.mailfrom=example.net")
        (written_pairs unchanged passing_header)
  /\ verify_headers unchanged (VList hs) (VStr (py "spf")) _DEFAULT_ACCEPT
                    (VStr (py "mx.google.com")) = Ok true.
Proof.
  cbv zeta.
  assert (Hd : forall header,
             In (VStr header) [VStr failing_header; VStr passing_header] ->
             NoDup (map fst (written_pairs unchanged header))).
  { intros header [E | [E | []]]; injection E as <-; vm_compute;
      (constructor; [intros [] | constructor]). }
  assert (Hp : In (py "spf", py "pass smtp.mailfrom=example.net")
                  (written_pairs unchanged passing_header)).
  { left. vm_compute. reflexivity. }
  split; [reflexivity |]. split; [reflexivity |]. split; [discriminate |].
  split; [exact Hd |]. split; [exact Hp |].
  apply (proj2 (verify_headers_written_pairs unchanged
                  (VList [VStr failing_header; VStr passing_header])
                  [VStr failing_header; VStr passing_header]
                  (py "spf") _DEFAULT_ACCEPT [VStr (py "pass")]
                  (py "mx.google.com") eq_refl eq_refl ltac:(discriminate))
           Hd).
  exists passing_header, (py "spf"), (py "pass smtp.mailfrom=example.net").
  split; [right; left; reflexivity |].
  split; [vm_compute; reflexivity |]. split; [exact Hp |].
  split; [vm_compute; reflexivity | left; vm_compute; reflexivity].
Defined.

(** C1: the header value holds the pair spf=pass, its authserv-id
    matches the domain and "pass" is accepted, yet [verify_headers]
    returns [False]: the later part spf=fail has taken the place of the
    value in the mapping. *)
Lemma contained_pair_not_verified :
  In (py "spf", py "pass") (written_pairs unchanged repeated_key)
  /\ lower unchanged (remove_comments_str (py "spf"))
     = lower unchanged (py "spf")
  /\ In (lower unchanged (remove_comments_str (py "pass")))
        (accepted_results unchanged [VStr (py "pass")])
  /\ endswith (authserv_id_of unchanged repeated_key)
              (lower unchanged (py "mx.google.com")) = true
  /\ verify_headers unchanged (VList [VStr repeated_key]) (VStr (py "spf"))
                    _DEFAULT_ACCEPT (VStr (py "mx.google.com"))
     = Ok false.
Proof.
  split; [left; vm_compute; reflexivity |].
  split; [vm_compute; reflexivity |].
  split; [left; vm_compute; reflexivity |].
  split; vm_compute; reflexivity.
Qed.

(** C7 as stated fails: with a method that is not a string the call
    raises when [headers] has no length, and with a domain that is not a
    string it raises when [accepted] cannot be iterated. *)
Lemma no_match_counterexample :
  verify_headers unchanged VNone (VInt 42) _DEFAULT_ACCEPT
                 (VStr (py "mx.google.com")) = Raise TypeError
  /\ verify_headers unchanged (VList [VStr passing_header]) (VStr (py "spf"))
                    (VInt 3) VNone = Raise TypeError.
Proof.
  split; reflexivity.
Qed.

(** C4: the method occurs twice as a key, the first occurrence carries
    the accepted result, and the answer is [False]. *)
Lemma first_pair_counterexample :
  written_pairs unchanged repeated_key
  = [(py "spf", py "pass"); (py "spf", py "fail")]
  /\ endswith (authserv_id_of unchanged repeated_key)
              (lower unchanged (py "mx.google.com")) = true
  /\ snd (parse_header unchanged repeated_key) = [(py "spf", py "fail")]
  /\ verify_headers unchanged (VList [VStr repeated_key]) (VStr (py "spf"))
                    (VList [VStr (py "pass")]) (VStr (py "mx.google.com"))
     = Ok false.
Proof.
  repeat split; vm_compute; reflexivity.
Qed.

(** C5 as stated fails for the method ["policy"]. *)
Lemma policy_counterexample :
  verify_headers unchanged (VList [VStr comment_heavy])
                 (VStr (py "policy")) (VList [VStr (py "1362471462")])
                 (VStr (py "mx.google.com"))
  <> Ok true.
Proof.
  vm_compute. discriminate.
Qed.

(** [len(headers)] raises on an argument without a length, before any
    other test. *)
Example verify_headers_unsized :
  verify_headers unchanged VNone (VInt 42) _DEFAULT_ACCEPT
                 (VStr (py "mx.google.com")) = Raise TypeError.
Proof. reflexivity. Qed.

(** ** The expectations of test_main.py *)

Example test_remove_comments_empty :
  map remove_comments_str
      [py ""; py "(all comments)"; py " (all comments)"; py "(all comments) ";
       py " (all comments) "]
  = [[]; []; []; []; []].
Proof. reflexivity. Qed.

Example test_remove_comments_domain :
  forallb (fun content =>
             str_eqb (remove_comments_str content) (py "foo.example.net"))
          [py "foo.example.net"; py "foo.example.net ";
           py "foo.example.net (foobar)"; py "foo.example.net (foobar) 1 (baz)";
           py " foo.example.net"; py " foo.example.net (foobar) 1 (baz)";
           py "(example) foo.example.net";
           py "(example) foo.example.net (foobar) 1 (baz)"]
  = true.
Proof. reflexivity. Qed.

Example test_remove_comments_method :
  forallb (fun content => str_eqb (remove_comments_str content) (py "dkim"))
          [py "dkim"; py "dkim (Because I like it) / 1";
           py "(example) dkim (Because I like it) / 1";
           py "(Because I like it) dkim / (One yay) 1";
           py "(Because I like it) dkim / 1 (One yay)"]
  = true.
Proof. reflexivity. Qed.

Example test_remove_comments_raises :
  map remove_comments [VNone; VInt 42; VList []]
  = [Raise TypeError; Raise TypeError; Raise TypeError].
Proof. reflexivity. Qed.

Example test_verify_headers_empty :
  map (fun headers =>
         verify_headers unchanged headers (VStr (py "spf")) _DEFAULT_ACCEPT
                        (VStr (py "mx.google.com")))
      [VStr []; VList []]
  = [Ok false; Ok false].
Proof. reflexivity. Qed.

Example test_verify_headers_domain :
  let headers :=
    VList [VStr (py "example.com; spf=pass smtp.mailfrom=example.net")] in
  map (fun domain =>
         verify_headers unchanged headers (VStr (py "spf")) _DEFAULT_ACCEPT
                        domain)
      [VStr (py "mx.google.com"); VNone; VInt 42; VList [];
       VStr (py "example.org"); VStr []; VStr (py "example.com")]
  = [Ok false; Ok false; Ok false; Ok false; Ok false; Ok true; Ok true].
Proof. vm_compute. reflexivity. Qed.

Example test_verify_headers_google :
  let first :=
    py "mx.google.com; auth=pass (cram-md5) smtp.auth=sender@example.net; spf=pass smtp.mailfrom=example.net" in
  let second := py "mx.google.com; sender-id=pass header.from=example.net" in
  map (fun method =>
         verify_headers unchanged (VList [VStr first; VStr second])
                        (VStr method) _DEFAULT_ACCEPT
                        (VStr (py "mx.google.com")))
      [py "auth"; py "spf"; py "dkim"; py "sender-id"]
  = [Ok true; Ok true; Ok false; Ok true].
Proof. vm_compute. reflexivity. Qed.

Example test_verify_headers_accepted :
  let headers :=
    VList [VStr (py "mx.google.com; spf=neutral smtp.mailfrom=example.net")] in
  map (fun accepted =>
         verify_headers unchanged headers (VStr (py "spf")) accepted
                        (VStr (py "mx.google.com")))
      [_DEFAULT_ACCEPT; VList []; VList [VStr (py "pass")];
       VList [VStr (py "neutral")];
       VTuple [VStr (py "pass"); VStr (py "neutral")];
       VList [VStr (py "neutral"); VStr (py "temperror")]]
  = [Ok false; Ok false; Ok false; Ok true; Ok true; Ok true].
Proof. vm_compute. reflexivity. Qed.
